(** * Deep research orchestrator: shallow embedding and verification

    Embedding of [api/research/deep_research.py] and of the provider adapters
    of [api/research/providers.py].  The orchestrator talks to four external
    capabilities (query generation, retrieval, extraction, report synthesis),
    to a clock, to an optional cancellation probe and to an optional progress
    sink.  All of them are modelled as operations on an abstract world [W]
    that return a value or raise; the orchestrator itself is written in a
    small state-and-exception monad that also records an observation log. *)

From Stdlib Require Import ZArith List String Lia Sorted.
From stdpp Require Import base gmap list strings pretty.

Open Scope Z_scope.

(** ** Python values used by the module *)

(** Instances of Python's [Exception] class, the ones an [except Exception]
    clause catches; [str] is [str(e)].  Interpreter signals that derive only
    from [BaseException] are outside the model. *)
Inductive exn := Exception (msg : string).

Definition str (e : exn) : string := let 'Exception msg := e in msg.

Inductive res (A : Type) := Ok (a : A) | Raise (e : exn).
Arguments Ok {A} a.
Arguments Raise {A} e.

(** Truthiness of a string and of a list ([if s:], [if not xs:]). *)
Definition truthy (s : string) : bool := negb (String.eqb s "").

Definition nonempty {A} (xs : list A) : bool :=
  match xs with [] => false | _ :: _ => true end.

(** [xs[:n]] for an integer [n]: a negative bound counts from the end. *)
Definition slice_to {A} (n : Z) (xs : list A) : list A :=
  if 0 <=? n then take (Z.to_nat n) xs
  else take (length xs - Z.to_nat (- n))%nat xs.

(** [d.get(key, dflt)] on a [Dict[str, str]]. *)
Definition dict_get (d : gmap string string) (key dflt : string) : string :=
  default dflt (d !! key).

(** ** Data model *)

(** A candidate query: the dictionaries of [List[Dict[str, str]]]. *)
Abbreviation QueryInfo := (gmap string string).

(** A retrieved document; [None] stands for an attribute the object lacks
    ([hasattr] false). *)
Record Document := {
  text : option string;
  meta_data : option (gmap string string)
}.

(** One element of what the RAG instance returns. *)
Record RetrieverOutput := { documents : list Document }.

(** The dictionary [process_research_results] returns. *)
Record Processed := {
  learnings_of : list string;
  follow_up_questions : list string
}.

Record ResearchResult := {
  learnings : list string;
  final_report : string
}.

(** What a streaming model call hands back: the fragments it will produce
    and, when the stream breaks, the exception raised after the last one. *)
Record ReportStream := {
  chunks : list string;
  stream_error : option exn
}.

(** ** Observation log

    Every call that leaves the orchestrator and every bookkeeping step the
    specification talks about is recorded, in the order in which it happens. *)
Inductive probe_site :=
| RoundTop (iteration : nat)          (* line 86, before round [iteration] *)
| BeforeQuery (iteration i : nat).    (* line 132, before candidate [i] *)

Inductive event :=
| EvSink (msg : string)
    (* the progress sink (or [on_chunk]) is called with [msg] *)
| EvProbe (site : probe_site) (b : bool)
    (* [check_cancelled()] returned [b] at [site] *)
| EvRound (iteration : nat) (t : Z)
    (* the three stop checks of a round passed; [t] is the clock value that
       was compared with the ceiling *)
| EvGenerate (num_queries : Z) (prior : option (list string))
    (* [generate_research_queries] entered *)
| EvGenerateError (e : exn)
    (* [logger.error("Error generating research queries")] *)
| EvCount (iteration i : nat) (total : Z) (t : Z)
    (* [total_queries += 1] done for candidate [i]; [total] is the new value
       and [t] the clock at that moment *)
| EvRetrieve (iteration i : nat) (search_query : string) (t : Z)
    (* [rag_instance(search_query)] is called at clock [t] *)
| EvRetrieveError (search_query : string) (e : exn)
    (* [logger.error("Error retrieving documents ...")] *)
| EvExtract (search_query : string)
    (* [process_research_results] entered *)
| EvExtractError (e : exn)
    (* [logger.error("Error processing research results")] *)
| EvLearnings (iteration i : nat) (query_learnings : list string)
    (* [iteration_learnings.extend(query_learnings)] *)
| EvReport (all : list string)
    (* the body of [write_final_report_streaming] starts *)
| EvYield (fragment : string)
    (* the report generator yields [fragment] *)
| EvReportError (e : exn).
    (* [logger.error("Error writing final report")] *)

(** ** The monad: state, exceptions and the log *)

Record out (S A : Type) := Out {
  result : res A;
  final : S;
  events : list event
}.
Arguments Out {S A} _ _ _.
Arguments result {S A} _.
Arguments final {S A} _.
Arguments events {S A} _.

Definition M (S A : Type) : Type := S -> out S A.

Definition ret {S A} (a : A) : M S A := fun s => Out (Ok a) s [].

Definition raise {S A} (e : exn) : M S A := fun s => Out (Raise e) s [].

Definition bind {S A B} (m : M S A) (f : A -> M S B) : M S B :=
  fun s =>
    let o := m s in
    match result o with
    | Ok a =>
        let o' := f a (final o) in
        Out (result o') (final o') (events o ++ events o')
    | Raise e => Out (Raise e) (final o) (events o)
    end.

(** [try: m  except Exception as e: h e].  State changes and log entries
    made before the exception are kept. *)
Definition try_except {S A} (m : M S A) (h : exn -> M S A) : M S A :=
  fun s =>
    let o := m s in
    match result o with
    | Ok a => o
    | Raise e =>
        let o' := h e (final o) in
        Out (result o') (final o') (events o ++ events o')
    end.

Definition log {S} (e : event) : M S unit := fun s => Out (Ok tt) s [e].

Definition gets {S A} (f : S -> A) : M S A := fun s => Out (Ok (f s)) s [].

Definition modify {S} (f : S -> S) : M S unit := fun s => Out (Ok tt) (f s) [].

(** An external operation: it may change the world and may raise. *)
Definition cap (W A : Type) : Type := W -> res A * W.

Definition call {W A} (c : cap W A) : M W A :=
  fun w => Out (fst (c w)) (snd (c w)) [].

Declare Scope py_scope.
Delimit Scope py_scope with py.
Notation "x <- m ;; k" := (bind m (fun x => k))
  (at level 100, m at next level, right associativity) : py_scope.
Notation "m ;; k" := (bind m (fun _ => k))
  (at level 100, right associativity) : py_scope.
Open Scope py_scope.

(** ** External collaborators

    [api.config.get_model_config], the OpenAI client and the Google client
    are not part of the module.  Each model call stands for the whole chain
    from building the request to parsing its JSON answer: [None] is a
    response without usable content ([hasattr] false or no choices), the
    payload is what [result.get(key, [])] gives. *)
Record Env (W : Type) := {
  now : W -> Z;
    (* [time.time()], in seconds *)
  get_model_config : string -> option string -> cap W string;
    (* the configured model name *)
  openai_queries :
    string -> string -> Z -> option (list string) ->
    cap W (option (list QueryInfo));
  google_queries :
    string -> string -> Z -> option (list string) ->
    cap W (option (list QueryInfo));
  openai_learnings :
    string -> string -> list string -> Z -> Z ->
    cap W (option (list string * list string));
  google_learnings :
    string -> string -> list string -> Z -> Z ->
    cap W (option (list string * list string));
  openai_stream : string -> string -> list string -> cap W ReportStream;
  google_stream : string -> string -> list string -> cap W ReportStream
}.
Arguments now {W} _ _.
Arguments get_model_config {W} _ _ _ _.
Arguments openai_queries {W} _ _ _ _ _ _.
Arguments google_queries {W} _ _ _ _ _ _.
Arguments openai_learnings {W} _ _ _ _ _ _ _.
Arguments google_learnings {W} _ _ _ _ _ _ _.
Arguments openai_stream {W} _ _ _ _ _.
Arguments google_stream {W} _ _ _ _ _.

(** Safety limits of [deep_research.py]. *)
Definition MAX_RESEARCH_TIME : Z := 300.
Definition MAX_QUERIES_PER_ITERATION : Z := 5.
Definition MAX_TOTAL_QUERIES : Z := 20.

(** [model or model_config["model"]] *)
Definition model_or (model : option string) (configured : string) : string :=
  match model with
  | Some m => if truthy m then m else configured
  | None => configured
  end.

(** ** providers.py *)
Section Providers.
Context {W : Type} (E : Env W).

Definition generate_research_queries
    (original_query : string) (num_queries : Z)
    (prior : option (list string)) (provider : string)
    (model : option string) : M W (list QueryInfo) :=
  log (EvGenerate num_queries prior) ;;
  try_except
    (model_config <- call (get_model_config E provider model) ;;
     if String.eqb provider "openai" then
       response <- call (openai_queries E (model_or model model_config)
                           original_query num_queries prior) ;;
       match response with
       | Some queries => ret (slice_to num_queries queries)
       | None => ret []
       end
     else if String.eqb provider "google" then
       response <- call (google_queries E (model_or model model_config)
                           original_query num_queries prior) ;;
       match response with
       | Some queries => ret (slice_to num_queries queries)
       | None => ret []
       end
     else ret [])
    (fun e => log (EvGenerateError e) ;; ret []).

(** The [contents] list built from the top ten documents. *)
Definition format_document (doc : Document) : option string :=
  match text doc with
  | Some body =>
      if truthy body then
        let file_path :=
          match meta_data doc with
          | Some md => dict_get md "file_path" "unknown"
          | None => "unknown"
          end in
        Some ("File: " +:+ file_path +:+ "

" +:+ body)
      else None
  | None => None
  end.

Definition format_documents (docs : list Document) : list string :=
  omap format_document (take 10 docs).

Definition no_findings : Processed :=
  {| learnings_of := []; follow_up_questions := [] |}.

Definition process_research_results
    (query : string) (retrieved_docs : list Document)
    (num_learnings num_follow_ups : Z) (provider : string)
    (model : option string) : M W Processed :=
  log (EvExtract query) ;;
  if nonempty retrieved_docs then
    let contents := format_documents retrieved_docs in
    if nonempty contents then
      try_except
        (model_config <- call (get_model_config E provider model) ;;
         if String.eqb provider "openai" then
           response <- call (openai_learnings E
                               (model_or model model_config) query contents
                               num_learnings num_follow_ups) ;;
           match response with
           | Some (ls, fs) =>
               ret {| learnings_of := slice_to num_learnings ls;
                      follow_up_questions := slice_to num_follow_ups fs |}
           | None => ret no_findings
           end
         else if String.eqb provider "google" then
           response <- call (google_learnings E
                               (model_or model model_config) query contents
                               num_learnings num_follow_ups) ;;
           match response with
           | Some (ls, fs) =>
               ret {| learnings_of := slice_to num_learnings ls;
                      follow_up_questions := slice_to num_follow_ups fs |}
           | None => ret no_findings
           end
         else ret no_findings)
        (fun e => log (EvExtractError e) ;; ret no_findings)
    else ret no_findings
  else ret no_findings.
End Providers.

(** ** deep_research.py *)

(** The local variables of one [deep_research] call, next to the world.
    [final_report_chunks] is filled by the body of the [async for] loop,
    which runs at every [yield] of the report generator. *)
Record St (W : Type) := {
  world : W;
  all_learnings : list string;
  iteration_learnings : list string;
  total_queries : Z;
  final_report_chunks : list string
}.
Arguments world {W} _.
Arguments all_learnings {W} _.
Arguments iteration_learnings {W} _.
Arguments total_queries {W} _.
Arguments final_report_chunks {W} _.

Definition enter {W} (w : W) : St W :=
  {| world := w; all_learnings := []; iteration_learnings := [];
     total_queries := 0; final_report_chunks := [] |}.

Definition set_world {W} (s : St W) (w : W) : St W :=
  {| world := w; all_learnings := all_learnings s;
     iteration_learnings := iteration_learnings s;
     total_queries := total_queries s;
     final_report_chunks := final_report_chunks s |}.

Definition set_all_learnings {W} (v : list string) (s : St W) : St W :=
  {| world := world s; all_learnings := v;
     iteration_learnings := iteration_learnings s;
     total_queries := total_queries s;
     final_report_chunks := final_report_chunks s |}.

Definition set_iteration_learnings {W} (v : list string) (s : St W) : St W :=
  {| world := world s; all_learnings := all_learnings s;
     iteration_learnings := v;
     total_queries := total_queries s;
     final_report_chunks := final_report_chunks s |}.

Definition set_total_queries {W} (v : Z) (s : St W) : St W :=
  {| world := world s; all_learnings := all_learnings s;
     iteration_learnings := iteration_learnings s;
     total_queries := v;
     final_report_chunks := final_report_chunks s |}.

Definition set_final_report_chunks {W} (v : list string) (s : St W) : St W :=
  {| world := world s; all_learnings := all_learnings s;
     iteration_learnings := iteration_learnings s;
     total_queries := total_queries s;
     final_report_chunks := v |}.

(** A computation on the world, run inside a [deep_research] call. *)
Definition lift {W A} (m : M W A) : M (St W) A :=
  fun s =>
    let o := m (world s) in
    Out (result o) (set_world s (final o)) (events o).

(** How a [for] body ends: fall through to the next element, or [break]. *)
Inductive flow := Next | Break.

(** The text returned when nothing was learnt. *)
Definition fallback_report (query : string) : string :=
  "# Research Results

Unable to find sufficient information in the codebase to answer: "
  +:+ query +:+
  "

Please try rephrasing your question or ensure the repository has been properly indexed.".

Definition think (body : string) : string := "<think>" +:+ body +:+ "</think>".

Definition report_error_message (e : exn) : string :=
  "Error generating final report: " +:+ str e.

Definition unsupported_provider_message : string :=
  "Error: Unable to generate report with the specified provider.".

Section Orchestrator.
Context {W : Type} (E : Env W).

(** The arguments of [deep_research] that stay fixed during a run. *)
Variable query : string.
Variable rag_instance : string -> string -> cap W (list RetrieverOutput).
Variable provider : string.
Variable model : option string.
Variable language : string.
Variable on_progress : option (string -> cap W unit).
Variable check_cancelled : option (cap W bool).

(** [time.time()] *)
Definition clock : M (St W) Z := gets (fun s => now E (world s)).

(** [if sink: await sink(msg)] *)
Definition notify_with (sink : option (string -> cap W unit)) (msg : string)
  : M (St W) unit :=
  match sink with
  | Some f => log (EvSink msg) ;; lift (call (f msg))
  | None => ret tt
  end.

Definition notify := notify_with on_progress.

(** [check_cancelled and check_cancelled()] *)
Definition cancelled (site : probe_site) : M (St W) bool :=
  match check_cancelled with
  | Some probe => b <- lift (call probe) ;; log (EvProbe site b) ;; ret b
  | None => ret false
  end.

(** *** The report generator of providers.py, driven by its consumer *)

(** [yield c], followed by the consumer's [final_report_chunks.append]. *)
Definition yield (c : string) : M (St W) unit :=
  log (EvYield c) ;;
  modify (fun s => set_final_report_chunks (final_report_chunks s ++ [c]) s).

Fixpoint stream_chunks (on_chunk : option (string -> cap W unit))
    (raw : list string) : M (St W) unit :=
  match raw with
  | [] => ret tt
  | c :: rest =>
      (if truthy c then notify_with on_chunk c ;; yield c else ret tt) ;;
      stream_chunks on_chunk rest
  end.

Definition consume_stream (on_chunk : option (string -> cap W unit))
    (response : ReportStream) : M (St W) unit :=
  stream_chunks on_chunk (chunks response) ;;
  match stream_error response with
  | Some e => raise e
  | None => ret tt
  end.

(** The [try] block of [write_final_report_streaming]. *)
Definition report_attempt (original_query : string) (all : list string)
    (on_chunk : option (string -> cap W unit)) : M (St W) unit :=
  model_config <- lift (call (get_model_config E provider model)) ;;
  if String.eqb provider "openai" then
    response <- lift (call (openai_stream E (model_or model model_config)
                              original_query all)) ;;
    consume_stream on_chunk response
  else if String.eqb provider "google" then
    response <- lift (call (google_stream E (model_or model model_config)
                              original_query all)) ;;
    consume_stream on_chunk response
  else
    let error_msg := unsupported_provider_message in
    notify_with on_chunk error_msg ;; yield error_msg.

Definition write_final_report_streaming (original_query : string)
    (all : list string) (on_chunk : option (string -> cap W unit))
  : M (St W) unit :=
  log (EvReport all) ;;
  try_except (report_attempt original_query all on_chunk)
    (fun e =>
       log (EvReportError e) ;;
       let error_msg := report_error_message e in
       notify_with on_chunk error_msg ;; yield error_msg).

(** *** The body of the inner [for] loop, lines 131-185 *)

(** The [try] block around retrieval and extraction. *)
Definition retrieve_and_extract (breadth : Z) (iteration i : nat)
    (search_query : string) : M (St W) unit :=
  t <- clock ;;
  log (EvRetrieve iteration i search_query t) ;;
  retrieved_results <- lift (call (rag_instance search_query language)) ;;
  match retrieved_results with
  | first :: _ =>
      if nonempty (documents first) then
        let docs := documents first in
        notify (think ("Found " +:+ pretty (length docs) +:+
                       " relevant code files, analyzing...")) ;;
        processed <- lift (process_research_results E search_query docs 3
                             breadth provider model) ;;
        let query_learnings := learnings_of processed in
        if nonempty query_learnings then
          modify (fun s => set_iteration_learnings
                             (iteration_learnings s ++ query_learnings) s) ;;
          log (EvLearnings iteration i query_learnings) ;;
          notify (think ("Extracted " +:+ pretty (length query_learnings) +:+
                         " insights from " +:+ search_query))
        else ret tt
      else
        notify (think ("No relevant code found for: " +:+ search_query))
  | [] => notify (think ("No relevant code found for: " +:+ search_query))
  end.

(** Lines 148-185: the [try] block with its handler. *)
Definition search_candidate (breadth : Z) (iteration i : nat)
    (search_query : string) : M (St W) unit :=
  try_except (retrieve_and_extract breadth iteration i search_query)
    (fun e =>
       log (EvRetrieveError search_query e) ;;
       notify (think ("Error searching for: " +:+ search_query))).

Definition query_step (breadth : Z) (iteration i : nat)
    (query_info : QueryInfo) : M (St W) flow :=
  c <- cancelled (BeforeQuery iteration i) ;;
  if c then ret Break
  else
    modify (fun s => set_total_queries (total_queries s + 1) s) ;;
    total <- gets total_queries ;;
    t <- clock ;;
    log (EvCount iteration i total t) ;;
    let search_query := dict_get query_info "query" "" in
    if truthy search_query then
      notify (think ("Searching codebase: " +:+ search_query)) ;;
      search_candidate breadth iteration i search_query ;;
      ret Next
    else ret Next.

(** [for i, query_info in enumerate(queries)], from index [i] on. *)
Fixpoint for_queries (breadth : Z) (iteration i : nat)
    (queries : list QueryInfo) : M (St W) unit :=
  match queries with
  | [] => ret tt
  | query_info :: rest =>
      f <- query_step breadth iteration i query_info ;;
      match f with
      | Break => ret tt
      | Next => for_queries breadth iteration (S i) rest
      end
  end.

(** *** The body of the outer [for] loop, lines 85-197 *)

(** Lines 106-197: what a round does once the stop checks have passed. *)
Definition round_work (breadth depth : Z) (iteration : nat) (t : Z)
  : M (St W) flow :=
  log (EvRound iteration t) ;;
  notify (think ("Research iteration " +:+
                 pretty (Z.of_nat iteration + 1) +:+ "/" +:+
                 pretty depth +:+ ": Generating search queries...")) ;;
  all <- gets all_learnings ;;
  queries <- lift (generate_research_queries E query breadth
                     (if nonempty all then Some all else None)
                     provider model) ;;
  if nonempty queries then
    modify (set_iteration_learnings []) ;;
    for_queries breadth iteration 0 queries ;;
    found <- gets iteration_learnings ;;
    if nonempty found then
      modify (fun s => set_all_learnings (all_learnings s ++ found) s) ;;
      notify (think ("Iteration " +:+ pretty (Z.of_nat iteration + 1)
                     +:+ " completed: " +:+ pretty (length found) +:+
                     " new insights discovered")) ;;
      ret Next
    else
      notify (think ("No new insights in iteration " +:+
                     pretty (Z.of_nat iteration + 1))) ;;
      ret Next
  else
    notify (think "No new queries generated, ending research early") ;;
    ret Break.

Definition research_iteration (breadth depth start_time : Z)
    (iteration : nat) : M (St W) flow :=
  c <- cancelled (RoundTop iteration) ;;
  if c then notify (think "Research cancelled") ;; ret Break
  else
    t <- clock ;;
    if MAX_RESEARCH_TIME <? t - start_time then
      notify (think
        "Research timeout - generating report with current findings") ;;
      ret Break
    else
      total <- gets total_queries ;;
      if MAX_TOTAL_QUERIES <=? total then
        notify (think "Query limit reached - generating report") ;;
        ret Break
      else round_work breadth depth iteration t.

(** [for iteration in range(depth)] over the indices still to come. *)
Fixpoint for_iterations (breadth depth start_time : Z)
    (iterations : list nat) : M (St W) unit :=
  match iterations with
  | [] => ret tt
  | iteration :: rest =>
      f <- research_iteration breadth depth start_time iteration ;;
      match f with
      | Break => ret tt
      | Next => for_iterations breadth depth start_time rest
      end
  end.

(** [range(depth)] *)
Definition range (depth : Z) : list nat := seq 0 (Z.to_nat depth).

(** Lines 69-198: the clamps, the start notification and the round loop. *)
Definition research_loop (breadth depth : Z) : M (St W) unit :=
  let breadth := Z.min breadth MAX_QUERIES_PER_ITERATION in
  let depth := Z.min depth 5 in
  start_time <- clock ;;
  modify (set_total_queries 0) ;;
  notify (think ("Starting deep research with depth=" +:+ pretty depth +:+
                 ", breadth=" +:+ pretty breadth)) ;;
  modify (set_all_learnings []) ;;
  for_iterations breadth depth start_time (range depth).

(** Lines 201-242: the report phase and the returned value. *)
Definition report_phase : M (St W) ResearchResult :=
  notify (think "Generating final comprehensive report...") ;;
  all <- gets all_learnings ;;
  report <-
    (if nonempty all then
       modify (set_final_report_chunks []) ;;
       write_final_report_streaming query all on_progress ;;
       parts <- gets final_report_chunks ;;
       ret (String.concat "" parts)
     else
       let report := fallback_report query in
       notify report ;; ret report) ;;
  all <- gets all_learnings ;;
  ret {| learnings := all; final_report := report |}.

Definition deep_research_body (breadth depth : Z) : M (St W) ResearchResult :=
  research_loop breadth depth ;; report_phase.

Definition deep_research (breadth depth : Z) : M W ResearchResult :=
  fun w =>
    let o := deep_research_body breadth depth (enter w) in
    Out (result o) (world (final o)) (events o).
End Orchestrator.



(** ** The round loop as the specification words it

    The specification lists the stop conditions of a round in the order
    cancellation, time ceiling, query ceiling, round index, empty candidate
    list, all of them tested at the top of the round.  [spec_round_loop] follows
    that wording; [remaining] is the number of rounds [depth] still allows,
    so that [remaining = 0] is "round index >= depth". *)
Section SpecRoundLoop.
Context {W : Type} (E : Env W).
Variable query : string.
Variable rag_instance : string -> string -> cap W (list RetrieverOutput).
Variable provider : string.
Variable model : option string.
Variable language : string.
Variable on_progress : option (string -> cap W unit).
Variable check_cancelled : option (cap W bool).


End SpecRoundLoop.

(** ** Reading the log *)

(** Log entries made by the report generator. *)
Definition is_report (e : event) : bool :=
  match e with
  | EvReport _ | EvYield _ | EvReportError _ => true
  | _ => false
  end.

Definition is_report_error (e : event) : bool :=
  match e with EvReportError _ => true | _ => false end.

Definition is_round (e : event) : bool :=
  match e with EvRound _ _ => true | _ => false end.

(** The round of every counter increment, in log order. *)
Definition counted (e : event) : list nat :=
  match e with EvCount k _ _ _ => [k] | _ => [] end.

Definition count_rounds (tr : list event) : list nat := flat_map counted tr.

Definition is_retrieve (e : event) : bool :=
  match e with EvRetrieve _ _ _ _ => true | _ => false end.

(** The learnings a log entry brought in, and all of them in log order. *)
Definition learnt (e : event) : list string :=
  match e with EvLearnings _ _ ls => ls | _ => [] end.

Definition discovered (tr : list event) : list string := flat_map learnt tr.

(** Where a batch of learnings came from: (round, candidate index). *)
Definition origin (e : event) : list (nat * nat) :=
  match e with EvLearnings k i _ => [(k, i)] | _ => [] end.

Definition origins (tr : list event) : list (nat * nat) := flat_map origin tr.



(** Round first, candidate index second. *)
Definition earlier (p q : nat * nat) : Prop :=
  (fst p < fst q)%nat \/ (fst p = fst q /\ (snd p < snd q)%nat).

(** Number of rounds that got past the stop checks, and of counter
    increments made in round [iteration]. *)
Definition rounds_executed (tr : list event) : nat :=
  length (List.filter is_round tr).

Definition queries_issued_in (iteration : nat) (tr : list event) : nat :=
  length (List.filter (Nat.eqb iteration) (count_rounds tr)).

Definition queries_issued (tr : list event) : nat := length (count_rounds tr).

(** A clock value that was within the ceiling when the round started. *)
Definition round_in_time (start_time : Z) (e : event) : Prop :=
  match e with
  | EvRound _ t => t - start_time <= MAX_RESEARCH_TIME
  | _ => True
  end.

(** The fragments the report generator yielded, in order. *)
Definition yielded_by (e : event) : list string :=
  match e with EvYield c => [c] | _ => [] end.

Definition yielded (tr : list event) : list string := flat_map yielded_by tr.

(** The log entries of one sink delivery, when a sink is supplied. *)
Definition sink_events {W} (sink : option (string -> cap W unit)) (msg : string)
  : list event :=
  match sink with Some _ => [EvSink msg] | None => [] end.

(** The clock value of a dispatch (counter increment or retrieval call). *)
Definition dispatch_time (e : event) : option Z :=
  match e with
  | EvCount _ _ _ t => Some t
  | EvRetrieve _ _ _ t => Some t
  | _ => None
  end.

(** A callback that returns normally in every world. *)
Definition never_raises {W A} (c : cap W A) : Prop :=
  forall w, exists a, fst (c w) = Ok a.

Definition sink_never_raises {W} (on_progress : option (string -> cap W unit))
  : Prop :=
  forall sink, on_progress = Some sink -> forall msg, never_raises (sink msg).

Definition probe_never_raises {W} (check_cancelled : option (cap W bool))
  : Prop :=
  forall probe, check_cancelled = Some probe -> never_raises probe.

(** ** A scripted world

    A world whose collaborators answer from scripts, one entry per call, each
    with the seconds the call takes.  Once a script is used up the
    collaborator answers with nothing (no candidates, no documents, no
    learnings, an empty stream). *)
Record sim := {
  sim_clock : Z;
  sim_queries : list (Z * res (option (list QueryInfo)));
  sim_rag : list (Z * res (list RetrieverOutput));
  sim_learnings : list (Z * res (option (list string * list string)));
  sim_stream : list (Z * res ReportStream);
  sim_sink : list (res unit);
  sim_probe : list (res bool)
}.

Definition sim_start : sim :=
  {| sim_clock := 1000; sim_queries := []; sim_rag := []; sim_learnings := [];
     sim_stream := []; sim_sink := []; sim_probe := [] |}.

Definition next_reply {A} (dflt : A) (script : list A) : A * list A :=
  match script with
  | [] => (dflt, [])
  | r :: rest => (r, rest)
  end.

Definition sim_answer_queries : cap sim (option (list QueryInfo)) :=
  fun w =>
    let p := next_reply (0, Ok (Some [])) (sim_queries w) in
    (snd (fst p),
     {| sim_clock := sim_clock w + fst (fst p); sim_queries := snd p;
        sim_rag := sim_rag w; sim_learnings := sim_learnings w;
        sim_stream := sim_stream w; sim_sink := sim_sink w;
        sim_probe := sim_probe w |}).

Definition sim_answer_rag : cap sim (list RetrieverOutput) :=
  fun w =>
    let p := next_reply (0, Ok []) (sim_rag w) in
    (snd (fst p),
     {| sim_clock := sim_clock w + fst (fst p); sim_queries := sim_queries w;
        sim_rag := snd p; sim_learnings := sim_learnings w;
        sim_stream := sim_stream w; sim_sink := sim_sink w;
        sim_probe := sim_probe w |}).

Definition sim_answer_learnings : cap sim (option (list string * list string)) :=
  fun w =>
    let p := next_reply (0, Ok (Some ([], []))) (sim_learnings w) in
    (snd (fst p),
     {| sim_clock := sim_clock w + fst (fst p); sim_queries := sim_queries w;
        sim_rag := sim_rag w; sim_learnings := snd p;
        sim_stream := sim_stream w; sim_sink := sim_sink w;
        sim_probe := sim_probe w |}).

Definition sim_answer_stream : cap sim ReportStream :=
  fun w =>
    let p := next_reply (0, Ok {| chunks := []; stream_error := None |})
               (sim_stream w) in
    (snd (fst p),
     {| sim_clock := sim_clock w + fst (fst p); sim_queries := sim_queries w;
        sim_rag := sim_rag w; sim_learnings := sim_learnings w;
        sim_stream := snd p; sim_sink := sim_sink w;
        sim_probe := sim_probe w |}).

Definition sim_sink_call (msg : string) : cap sim unit :=
  fun w =>
    let p := next_reply (Ok tt) (sim_sink w) in
    (fst p,
     {| sim_clock := sim_clock w; sim_queries := sim_queries w;
        sim_rag := sim_rag w; sim_learnings := sim_learnings w;
        sim_stream := sim_stream w; sim_sink := snd p;
        sim_probe := sim_probe w |}).

(** A sink and a probe that never fail. *)
Definition sim_quiet_sink (msg : string) : cap sim unit := fun w => (Ok tt, w).

Definition sim_never_cancelled : cap sim bool := fun w => (Ok false, w).

Definition sim_probe_call : cap sim bool :=
  fun w =>
    let p := next_reply (Ok false) (sim_probe w) in
    (fst p,
     {| sim_clock := sim_clock w; sim_queries := sim_queries w;
        sim_rag := sim_rag w; sim_learnings := sim_learnings w;
        sim_stream := sim_stream w; sim_sink := sim_sink w;
        sim_probe := snd p |}).

Definition sim_env : Env sim :=
  {| now := sim_clock;
     get_model_config := fun _ _ w => (Ok "sim-model", w);
     openai_queries := fun _ _ _ _ => sim_answer_queries;
     google_queries := fun _ _ _ _ => sim_answer_queries;
     openai_learnings := fun _ _ _ _ _ => sim_answer_learnings;
     google_learnings := fun _ _ _ _ _ => sim_answer_learnings;
     openai_stream := fun _ _ _ => sim_answer_stream;
     google_stream := fun _ _ _ => sim_answer_stream |}.

Definition sim_rag_instance (search_query language : string)
  : cap sim (list RetrieverOutput) := sim_answer_rag.

(** A simulated run: the question, the callbacks that are supplied, the
    tunables and the starting world. *)
Definition sim_run (question : string) (with_sink with_probe : bool)
    (breadth depth : Z) (w : sim) : out sim ResearchResult :=
  deep_research sim_env question sim_rag_instance "openai" None "en"
    (if with_sink then Some sim_sink_call else None)
    (if with_probe then Some sim_probe_call else None)
    breadth depth w.

Definition sim_body (question : string) (with_sink with_probe : bool)
    (breadth depth : Z) (w : sim) : out (St sim) ResearchResult :=
  deep_research_body sim_env question sim_rag_instance "openai" None "en"
    (if with_sink then Some sim_sink_call else None)
    (if with_probe then Some sim_probe_call else None)
    breadth depth (enter w).

(** Candidates and documents for the scripts. *)
Definition candidate (search goal : string) : QueryInfo :=
  {[ "query" := search; "research_goal" := goal ]}.

Definition candidates (n : nat) : list QueryInfo :=
  map (fun i => candidate ("topic " +:+ pretty i) "goal") (seq 0 n).

Definition code_file (path body : string) : Document :=
  {| text := Some body; meta_data := Some {[ "file_path" := path ]} |}.

Definition found (docs : list Document) : list RetrieverOutput :=
  [ {| documents := docs |} ].


(** Scripts are put into a world one at a time. *)
Definition with_queries (script : list (Z * res (option (list QueryInfo))))
    (w : sim) : sim :=
  {| sim_clock := sim_clock w; sim_queries := script; sim_rag := sim_rag w;
     sim_learnings := sim_learnings w; sim_stream := sim_stream w;
     sim_sink := sim_sink w; sim_probe := sim_probe w |}.

Definition with_rag (script : list (Z * res (list RetrieverOutput)))
    (w : sim) : sim :=
  {| sim_clock := sim_clock w; sim_queries := sim_queries w; sim_rag := script;
     sim_learnings := sim_learnings w; sim_stream := sim_stream w;
     sim_sink := sim_sink w; sim_probe := sim_probe w |}.

Definition with_learnings
    (script : list (Z * res (option (list string * list string))))
    (w : sim) : sim :=
  {| sim_clock := sim_clock w; sim_queries := sim_queries w;
     sim_rag := sim_rag w; sim_learnings := script;
     sim_stream := sim_stream w; sim_sink := sim_sink w;
     sim_probe := sim_probe w |}.

Definition with_stream (script : list (Z * res ReportStream)) (w : sim) : sim :=
  {| sim_clock := sim_clock w; sim_queries := sim_queries w;
     sim_rag := sim_rag w; sim_learnings := sim_learnings w;
     sim_stream := script; sim_sink := sim_sink w;
     sim_probe := sim_probe w |}.

Definition with_sink (script : list (res unit)) (w : sim) : sim :=
  {| sim_clock := sim_clock w; sim_queries := sim_queries w;
     sim_rag := sim_rag w; sim_learnings := sim_learnings w;
     sim_stream := sim_stream w; sim_sink := script;
     sim_probe := sim_probe w |}.

Definition with_probe (script : list (res bool)) (w : sim) : sim :=
  {| sim_clock := sim_clock w; sim_queries := sim_queries w;
     sim_rag := sim_rag w; sim_learnings := sim_learnings w;
     sim_stream := sim_stream w; sim_sink := sim_sink w;
     sim_probe := script |}.

(** *** Scenarios *)

Definition question : string := "How does authentication work?".

Definition auth_docs : list RetrieverOutput :=
  found [code_file "api/auth.py" "def login(user): ..."].

(** Two rounds; the second one learns again something already known. *)
Definition two_rounds : sim :=
  with_queries [(1, Ok (Some (candidates 2))); (1, Ok (Some (candidates 1)))]
  (with_rag [(2, Ok auth_docs); (2, Ok []); (2, Ok auth_docs)]
  (with_learnings
     [(3, Ok (Some (["tokens are signed"; "sessions expire"], ["what next?"])));
      (3, Ok (Some (["tokens are signed"; "keys rotate"], [])))]
  (with_stream
     [(5, Ok {| chunks := ["# Report"; ""; " body"]; stream_error := None |})]
   sim_start))).

(** The same, with a client that goes away before the second candidate of
    the first round. *)
Definition cancelled_mid_round : sim :=
  with_probe [Ok false; Ok false; Ok true; Ok true] two_rounds.

(** A client that is gone before the first round. *)
Definition cancelled_at_once : sim := with_probe [Ok true] two_rounds.

(** Five rounds of five, five, five, four and five candidates. *)
Definition uneven_rounds : sim :=
  with_queries
    (map (fun n => (1, Ok (Some (candidates n)))) [5; 5; 5; 4; 5]%nat)
    sim_start.

(** One round of two candidates; the first retrieval takes 400 seconds. *)
Definition slow_retrieval : sim :=
  with_queries [(1, Ok (Some (candidates 2)))]
  (with_rag [(400, Ok []); (1, Ok [])] sim_start).

(** The model answers with no candidate at all. *)
Definition no_candidates : sim :=
  with_queries [(1, Ok (Some []))] sim_start.






(** A run of the simulated world with callbacks that cannot fail. *)
Definition sim_run_quiet (breadth depth : Z) (w : sim) : out sim ResearchResult :=
  deep_research sim_env question sim_rag_instance "openai" None "en"
    (Some sim_quiet_sink) (Some sim_never_cancelled) breadth depth w.

(** A dispatch made while the elapsed time is within the ceiling. *)
Definition dispatched_in_time (start_time : Z) (e : event) : Prop :=
  match dispatch_time e with
  | Some t => t - start_time <= MAX_RESEARCH_TIME
  | None => True
  end.

(** ** Weakest preconditions

    A computation is a total function, so the postcondition simply reads
    the three components of its outcome. *)
Definition wp {S A} (m : M S A) (Q : res A -> S -> list event -> Prop) (s : S)
  : Prop :=
  Q (result (m s)) (final (m s)) (events (m s)).

(** ** Quiet steps

    Sink deliveries, probe calls and the provider log entries do not touch the
    local variables, and none of the counting functions below sees them. *)
Definition quiet_event (e : event) : bool :=
  match e with
  | EvSink _ | EvProbe _ _ | EvGenerate _ _ | EvGenerateError _
  | EvExtract _ | EvExtractError _ | EvRetrieveError _ _ => true
  | _ => false
  end.

Definition quiet (tr : list event) : Prop := forallb quiet_event tr = true.

(** Log entries that are neither a round start, nor a counter increment, nor
    a batch of learnings. *)
Definition aside_event (e : event) : bool :=
  match e with
  | EvRound _ _ | EvCount _ _ _ _ | EvLearnings _ _ _ => false
  | _ => true
  end.

Definition aside (tr : list event) : Prop := forallb aside_event tr = true.

(** A computation that returns normally from every state. *)
Definition safe {S A} (m : M S A) : Prop :=
  forall s, exists a, result (m s) = Ok a.

(** A computation that changes nothing but the world and logs quiet events. *)
Definition silent {W A} (m : M (St W) A) : Prop :=
  forall s, (exists w, final (m s) = set_world s w) /\ quiet (events (m s)).


(** ** Further readings of the log *)

(** What the sink received, in order. *)
Definition delivered_by (e : event) : list string :=
  match e with EvSink msg => [msg] | _ => [] end.

Definition delivered (tr : list event) : list string := flat_map delivered_by tr.

(** The retrieval calls of a log. *)
Definition retrievals (tr : list event) : nat :=
  length (List.filter is_retrieve tr).

(** Log entries of the callbacks, of the extraction and of a failed
    retrieval. *)
Definition basic_event (e : event) : bool :=
  match e with
  | EvSink _ | EvProbe _ _ | EvExtract _ | EvExtractError _
  | EvRetrieveError _ _ => true
  | _ => false
  end.

Definition basic (tr : list event) : Prop := forallb basic_event tr = true.

(** Log entries of the query generation. *)
Definition is_generate (e : event) : bool :=
  match e with
  | EvGenerate _ _ | EvGenerateError _ => true
  | _ => false
  end.

(** Log entries of one candidate of the inner loop, the basic ones apart. *)
Definition is_candidate (e : event) : bool :=
  match e with
  | EvCount _ _ _ _ | EvRetrieve _ _ _ _ | EvLearnings _ _ _ => true
  | _ => false
  end.

(** A property of logs that every basic log has and that is kept when two
    logs are put one after the other. *)
Definition additive (P : list event -> Prop) : Prop :=
  (forall t, basic t -> P t) /\
  (forall t1 t2, P t1 -> P t2 -> P (t1 ++ t2)).

(** Every log the computation can produce has the property. *)
Definition emits {S A} (P : list event -> Prop) (m : M S A) : Prop :=
  forall s, P (events (m s)).

(** A provider name that neither branch of providers.py handles. *)
Definition unsupported (provider : string) : Prop :=
  provider <> "openai" /\ provider <> "google".

(** A document the extraction prompt cannot use: no text, or empty text. *)
Definition without_text (doc : Document) : Prop :=
  text doc = None \/ text doc = Some "".

(** At most three learnings for each retrieval call, and no retrieval call
    without an increment of the query counter. *)
Definition within_budget (tr : list event) : Prop :=
  (length (discovered tr) <= 3 * retrievals tr)%nat /\
  (retrievals tr <= queries_issued tr)%nat.

(** What a provider's stream makes the report generator yield: the
    fragments that are not empty and, when the stream breaks, the failure
    text. *)
Definition stream_outcome (response : ReportStream) : list string :=
  List.filter truthy (chunks response) ++
  match stream_error response with
  | Some e => [report_error_message e]
  | None => []
  end.

(** What the sink, when there is one, gets to see of yielded fragments. *)
Definition forwarded {W} (sink : option (string -> cap W unit))
    (fragments : list string) : list string :=
  match sink with Some _ => fragments | None => [] end.

(** Every call of the query generation in the log asks for [n] candidates
    and is given the learnings the log has brought in before it, [None] when
    there are none yet; [seen] are the learnings from before the log. *)
Fixpoint fed_back (n : Z) (seen : list string) (tr : list event) : Prop :=
  match tr with
  | [] => True
  | EvGenerate m prior :: rest =>
      (m = n /\ prior = if nonempty seen then Some seen else None) /\
      fed_back n seen rest
  | EvLearnings _ _ ls :: rest => fed_back n (seen ++ ls) rest
  | _ :: rest => fed_back n seen rest
  end.

(** A log that is fed back whatever came before it: one without a call of
    the query generation. *)
Definition ungenerated (tr : list event) : Prop :=
  forall n seen, fed_back n seen tr.

(** ** Further scenarios *)

(** A model that answers with seven candidates whatever it is asked for. *)
Definition talkative_model : sim :=
  with_queries [(1, Ok (Some (candidates 7)))] sim_start.

(** An extraction that answers with five learnings and four follow-ups. *)
Definition verbose_extraction : sim :=
  with_learnings
    [(3, Ok (Some (["one"; "two"; "three"; "four"; "five"],
                   ["a?"; "b?"; "c?"; "d?"])))]
    sim_start.

(** Documents the extraction cannot use. *)
Definition blank_docs : list Document :=
  [ {| text := None; meta_data := None |};
    {| text := Some ""; meta_data := Some {[ "file_path" := "api/empty.py" ]} |} ].

(** A candidate that has a goal but no search string. *)
Definition bare_candidate : QueryInfo := {[ "research_goal" := "goal" ]}.

(** The retriever finds a file; the sink fails at its first delivery. *)
Definition sink_fails_on_found : sim :=
  with_sink [Raise (Exception "sink closed")]
  (with_rag [(2, Ok auth_docs)] sim_start).

(** A provider name outside the two that providers.py handles. *)
Definition other_provider : string := "ollama".

(** * Reasoning about runs *)

(** ** Rules of the weakest precondition *)

Lemma wp_ret {S A} (a : A) Q (s : S) : Q (Ok a) s [] -> wp (ret a) Q s.
Proof. exact id. Qed.

Lemma wp_raise {S A} (e : exn) (Q : res A -> S -> list event -> Prop) s :
  Q (Raise e) s [] -> wp (raise e) Q s.
Proof. exact id. Qed.

Lemma wp_log {S} (e : event) Q (s : S) : Q (Ok tt) s [e] -> wp (log e) Q s.
Proof. exact id. Qed.

Lemma wp_gets {S A} (f : S -> A) Q (s : S) : Q (Ok (f s)) s [] -> wp (gets f) Q s.
Proof. exact id. Qed.

Lemma wp_modify {S} (f : S -> S) Q (s : S) :
  Q (Ok tt) (f s) [] -> wp (modify f) Q s.
Proof. exact id. Qed.

Lemma wp_bind {S A B} (m : M S A) (f : A -> M S B) Q s :
  wp m (fun r s1 t1 =>
          match r with
          | Ok a => wp (f a) (fun r2 s2 t2 => Q r2 s2 (t1 ++ t2)) s1
          | Raise e => Q (Raise e) s1 t1
          end) s ->
  wp (bind m f) Q s.
Proof.
  unfold wp, bind. destruct (result (m s)); simpl; auto.
Qed.

Lemma wp_try {S A} (m : M S A) (h : exn -> M S A) Q s :
  wp m (fun r s1 t1 =>
          match r with
          | Ok a => Q (Ok a) s1 t1
          | Raise e => wp (h e) (fun r2 s2 t2 => Q r2 s2 (t1 ++ t2)) s1
          end) s ->
  wp (try_except m h) Q s.
Proof.
  unfold wp, try_except. destruct (result (m s)) eqn:Hr; simpl; auto.
  intros H. rewrite Hr. exact H.
Qed.

Lemma wp_mono {S A} (m : M S A) (Q Q' : res A -> S -> list event -> Prop) s :
  wp m Q s -> (forall r s' t, Q r s' t -> Q' r s' t) -> wp m Q' s.
Proof. unfold wp. auto. Qed.

Lemma wp_lift {W A} (m : M W A) Q (s : St W) :
  wp m (fun r w t => Q r (set_world s w) t) (world s) -> wp (lift m) Q s.
Proof. exact id. Qed.

Lemma wp_call {W A} (c : cap W A) Q (w : W) :
  Q (fst (c w)) (snd (c w)) [] -> wp (call c) Q w.
Proof. exact id. Qed.

Lemma quiet_nil : quiet [].
Proof. reflexivity. Qed.

Lemma quiet_app t1 t2 : quiet t1 -> quiet t2 -> quiet (t1 ++ t2).
Proof.
  unfold quiet. rewrite forallb_app. intros -> ->. reflexivity.
Qed.

Lemma quiet_flat_map {B} (f : event -> list B) tr :
  (forall e, quiet_event e = true -> f e = []) -> quiet tr -> flat_map f tr = [].
Proof.
  intros Hf. unfold quiet. induction tr as [|e tr IH]; simpl; [easy|].
  intros [He Htr]%andb_prop. rewrite (Hf e He). simpl. auto.
Qed.

Lemma quiet_filter (p : event -> bool) tr :
  (forall e, quiet_event e = true -> p e = false) -> quiet tr ->
  List.filter p tr = [].
Proof.
  intros Hp. unfold quiet. induction tr as [|e tr IH]; simpl; [easy|].
  intros [He Htr]%andb_prop. rewrite (Hp e He). auto.
Qed.

Lemma quiet_discovered tr : quiet tr -> discovered tr = [].
Proof. apply quiet_flat_map. intros []; simpl; congruence. Qed.

Lemma quiet_origins tr : quiet tr -> origins tr = [].
Proof. apply quiet_flat_map. intros []; simpl; congruence. Qed.

Lemma silent_wp {W A} (m : M (St W) A) Q s :
  silent m ->
  (forall r w t, quiet t -> Q r (set_world s w) t) ->
  wp m Q s.
Proof.
  intros Hm HQ. destruct (Hm s) as [[w Hw] Ht]. unfold wp. rewrite Hw. auto.
Qed.

Lemma set_world_same {W} (s : St W) : set_world s (world s) = s.
Proof. destruct s; reflexivity. Qed.

Lemma silent_ret {W A} (a : A) : silent (W := W) (ret a).
Proof. intros s. split; [exists (world s); symmetry; apply set_world_same | apply quiet_nil]. Qed.

Lemma silent_bind {W A B} (m : M (St W) A) (f : A -> M (St W) B) :
  silent m -> (forall a, silent (f a)) -> silent (bind m f).
Proof.
  intros Hm Hf s. unfold bind. destruct (Hm s) as [[w Hw] Ht].
  destruct (result (m s)) as [a|e]; simpl.
  - destruct (Hf a (final (m s))) as [[w' Hw'] Ht']. split.
    + exists w'. rewrite Hw', Hw. reflexivity.
    + apply quiet_app; assumption.
  - split; [exists w; exact Hw | exact Ht].
Qed.

Lemma silent_log {W} (e : event) : quiet_event e = true -> silent (W := W) (log e).
Proof.
  intros He s. split; [exists (world s); symmetry; apply set_world_same|].
  unfold quiet. simpl. rewrite He. reflexivity.
Qed.

Lemma silent_lift {W A} (m : M W A) :
  (forall w, quiet (events (m w))) -> silent (lift m).
Proof. intros Hm s. split; [eexists; reflexivity | apply Hm]. Qed.

Lemma silent_lift_call {W A} (c : cap W A) : silent (lift (call c)).
Proof. apply silent_lift. intros w. apply quiet_nil. Qed.

(** ** The providers are quiet and never raise *)
Section ProviderFacts.
Context {W : Type} (E : Env W).

Lemma slice_to_length {A} (n : Z) (xs : list A) :
  0 <= n -> (length (slice_to n xs) <= Z.to_nat n)%nat.
Proof.
  intros Hn. unfold slice_to. destruct (0 <=? n) eqn:Hle; [|lia].
  rewrite length_take. lia.
Qed.

Lemma generate_research_queries_quiet q n prior provider model w :
  quiet (events (generate_research_queries E q n prior provider model w)).
Proof.
  unfold generate_research_queries, bind, try_except, log, call, ret; simpl.
  destruct (fst (get_model_config E provider model w)); simpl; [|reflexivity].
  destruct (String.eqb provider "openai"); simpl.
  { destruct (fst (openai_queries E _ _ _ _ _)) as [[?|]|]; reflexivity. }
  destruct (String.eqb provider "google"); simpl.
  { destruct (fst (google_queries E _ _ _ _ _)) as [[?|]|]; reflexivity. }
  reflexivity.
Qed.

Lemma generate_research_queries_returns q n prior provider model w :
  exists qs, result (generate_research_queries E q n prior provider model w) = Ok qs
             /\ (0 <= n -> (length qs <= Z.to_nat n)%nat).
Proof.
  unfold generate_research_queries, bind, try_except, log, call, ret; simpl.
  destruct (fst (get_model_config E provider model w)); simpl;
    [|eexists; split; [reflexivity | simpl; lia]].
  destruct (String.eqb provider "openai"); simpl.
  { destruct (fst (openai_queries E _ _ _ _ _)) as [[?|]|]; simpl;
      eexists; (split; [reflexivity|]); intros;
      first [apply slice_to_length; assumption | simpl; lia]. }
  destruct (String.eqb provider "google"); simpl.
  { destruct (fst (google_queries E _ _ _ _ _)) as [[?|]|]; simpl;
      eexists; (split; [reflexivity|]); intros;
      first [apply slice_to_length; assumption | simpl; lia]. }
  eexists; split; [reflexivity | simpl; lia].
Qed.

Lemma process_research_results_quiet q docs n f provider model w :
  quiet (events (process_research_results E q docs n f provider model w)).
Proof.
  unfold process_research_results, bind, try_except, log, call, ret; simpl.
  destruct (nonempty docs); simpl; [|reflexivity].
  destruct (nonempty (format_documents docs)); simpl; [|reflexivity].
  destruct (fst (get_model_config E provider model w)); simpl; [|reflexivity].
  destruct (String.eqb provider "openai"); simpl.
  { destruct (fst (openai_learnings E _ _ _ _ _ _)) as [[[? ?]|]|]; reflexivity. }
  destruct (String.eqb provider "google"); simpl.
  { destruct (fst (google_learnings E _ _ _ _ _ _)) as [[[? ?]|]|]; reflexivity. }
  reflexivity.
Qed.

Lemma process_research_results_returns q docs n f provider model w :
  exists p, result (process_research_results E q docs n f provider model w) = Ok p.
Proof.
  unfold process_research_results, bind, try_except, log, call, ret; simpl.
  destruct (nonempty docs); simpl; [|eauto].
  destruct (nonempty (format_documents docs)); simpl; [|eauto].
  destruct (fst (get_model_config E provider model w)); simpl; [|eauto].
  destruct (String.eqb provider "openai"); simpl.
  { destruct (fst (openai_learnings E _ _ _ _ _ _)) as [[[? ?]|]|]; simpl; eauto. }
  destruct (String.eqb provider "google"); simpl.
  { destruct (fst (google_learnings E _ _ _ _ _ _)) as [[[? ?]|]|]; simpl; eauto. }
  eauto.
Qed.
End ProviderFacts.

(** ** Stepping through the orchestrator *)

Lemma quiet_count_rounds tr : quiet tr -> count_rounds tr = [].
Proof. apply quiet_flat_map. intros []; simpl; congruence. Qed.

Lemma count_rounds_app t1 t2 :
  count_rounds (t1 ++ t2) = count_rounds t1 ++ count_rounds t2.
Proof. apply flat_map_app. Qed.

Lemma filter_quiet_round tr : quiet tr -> List.filter is_round tr = [].
Proof. apply quiet_filter. intros []; simpl; congruence. Qed.

Lemma filter_quiet_report tr : quiet tr -> List.filter is_report tr = [].
Proof. apply quiet_filter. intros []; simpl; congruence. Qed.

Lemma discovered_app t1 t2 : discovered (t1 ++ t2) = discovered t1 ++ discovered t2.
Proof. apply flat_map_app. Qed.

Lemma origins_app t1 t2 : origins (t1 ++ t2) = origins t1 ++ origins t2.
Proof. apply flat_map_app. Qed.

Section OrchestratorFacts.
Context {W : Type} (E : Env W).
Variable query : string.
Variable rag_instance : string -> string -> cap W (list RetrieverOutput).
Variable provider : string.
Variable model : option string.
Variable language : string.
Variable on_progress : option (string -> cap W unit).
Variable check_cancelled : option (cap W bool).

Lemma notify_with_silent sink msg : silent (W := W) (notify_with sink msg).
Proof.
  destruct sink as [f|]; simpl; [|apply silent_ret].
  apply silent_bind; [apply silent_log; reflexivity|].
  intros _. apply silent_lift_call.
Qed.

Lemma cancelled_silent site : silent (cancelled check_cancelled site).
Proof.
  unfold cancelled. destruct check_cancelled as [probe|]; [|apply silent_ret].
  apply silent_bind; [apply silent_lift_call|]. intros b.
  apply silent_bind; [apply silent_log; reflexivity|].
  intros _. apply silent_ret.
Qed.

Lemma generate_silent q n prior :
  silent (lift (W := W) (generate_research_queries E q n prior provider model)).
Proof. apply silent_lift. intros w. apply generate_research_queries_quiet. Qed.

Lemma process_silent q docs n f :
  silent (lift (W := W) (process_research_results E q docs n f provider model)).
Proof. apply silent_lift. intros w. apply process_research_results_quiet. Qed.

(** One step of symbolic execution. *)
Ltac wp_step :=
  cbv beta iota;
  lazymatch goal with
  | |- wp (bind _ _) _ _ => apply wp_bind
  | |- wp (ret _) _ _ => apply wp_ret
  | |- wp (raise _) _ _ => apply wp_raise
  | |- wp (log _) _ _ => apply wp_log
  | |- wp (gets _) _ _ => apply wp_gets
  | |- wp (clock _) _ _ => apply wp_gets
  | |- wp (modify _) _ _ => apply wp_modify
  | |- wp (try_except _ _) _ _ => apply wp_try
  | |- wp (notify _ _) _ _ =>
      apply silent_wp; [apply notify_with_silent | intros ? ? ? ?]
  | |- wp (notify_with _ _) _ _ =>
      apply silent_wp; [apply notify_with_silent | intros ? ? ? ?]
  | |- wp (cancelled _ _) _ _ =>
      apply silent_wp; [apply cancelled_silent | intros ? ? ? ?]
  | |- wp (lift (call _)) _ _ =>
      apply silent_wp; [apply silent_lift_call | intros ? ? ? ?]
  | |- wp (lift (process_research_results _ _ _ _ _ _ _)) _ _ =>
      apply silent_wp; [apply process_silent | intros ? ? ? ?]
  | |- wp (lift (generate_research_queries _ _ _ _ _ _)) _ _ =>
      apply silent_wp; [apply generate_silent | intros ? ? ? ?]
  | |- wp (if ?b then _ else _) _ _ => destruct b eqn:?
  | |- wp (match ?x with _ => _ end) _ _ => destruct x eqn:?
  | |- match ?r with Ok _ => _ | Raise _ => _ end => destruct r
  end.

Ltac wp_run := repeat wp_step; cbv beta iota.

(** Clean-up of the log functions on a symbolically executed trace. *)
Ltac log_simpl :=
  repeat (progress (
    repeat first
      [ rewrite discovered_app | rewrite origins_app | rewrite count_rounds_app
      | rewrite List.filter_app | rewrite length_app
      | rewrite app_nil_r | rewrite app_nil_l ];
    repeat match goal with
    | H : quiet ?t |- _ =>
        first [ rewrite (quiet_discovered t H)
              | rewrite (quiet_origins t H)
              | rewrite (quiet_count_rounds t H)
              | rewrite (filter_quiet_round t H)
              | rewrite (filter_quiet_report t H) ]
    end;
    cbn [discovered origins count_rounds flat_map learnt origin counted
         List.filter is_round is_report is_retrieve length app
         all_learnings iteration_learnings total_queries final_report_chunks
         set_world set_all_learnings set_iteration_learnings set_total_queries
         set_final_report_chunks])).

(** What the retrieval-and-extraction block does to the local variables and
    to the log, whether it returns or raises. *)
Lemma retrieve_and_extract_summary breadth k i search_query s :
  wp (retrieve_and_extract E rag_instance provider model language on_progress
        breadth k i search_query)
     (fun _ s' t =>
        all_learnings s' = all_learnings s /\
        iteration_learnings s' = iteration_learnings s ++ discovered t /\
        total_queries s' = total_queries s /\
        (origins t = [] \/ origins t = [(k, i)]) /\
        count_rounds t = [] /\
        List.filter is_round t = [] /\
        List.filter is_report t = []) s.
Proof.
  unfold retrieve_and_extract.
  wp_run.
  all: log_simpl.
  all: repeat split; auto.
Qed.

Lemma generate_wp q n prior Q (s : St W) :
  (forall qs w t, quiet t ->
     (0 <= n -> (length qs <= Z.to_nat n)%nat) ->
     Q (Ok qs) (set_world s w) t) ->
  wp (lift (generate_research_queries E q n prior provider model)) Q s.
Proof.
  intros HQ. unfold wp, lift; cbn [result final events].
  destruct (generate_research_queries_returns E q n prior provider model (world s))
    as (qs & Hr & Hlen).
  rewrite Hr. apply HQ; [apply generate_research_queries_quiet | exact Hlen].
Qed.

(** Facts about an intermediate state or trace, pushed into the goal. *)
Ltac use_facts :=
  repeat match goal with
  | H : _ /\ _ |- _ => destruct H
  | H : _ \/ _ |- _ => destruct H
  | H : all_learnings ?s = _ |- _ => is_var s; try rewrite H in *; clear H
  | H : iteration_learnings ?s = _ |- _ => is_var s; try rewrite H in *; clear H
  | H : total_queries ?s = _ |- _ => is_var s; try rewrite H in *; clear H
  | H : origins ?t = _ |- _ => is_var t; try rewrite H in *; clear H
  | H : count_rounds ?t = _ |- _ => is_var t; try rewrite H in *; clear H
  | H : List.filter _ ?t = _ |- _ => is_var t; try rewrite H in *; clear H
  end.

Ltac summary_done :=
  log_simpl; use_facts; log_simpl;
  repeat split; intros; log_simpl; auto; try lia.

Ltac wp_sub :=
  lazymatch goal with
  | |- wp (retrieve_and_extract _ _ _ _ _ _ _ _ _ _) _ _ =>
      eapply wp_mono;
      [apply retrieve_and_extract_summary | cbv beta; intros ? ? ? ?]
  | |- _ => wp_step
  end.

(** One candidate of the inner loop. *)
Lemma query_step_summary breadth k i query_info s :
  wp (query_step E rag_instance provider model language on_progress
        check_cancelled breadth k i query_info)
     (fun _ s' t =>
        all_learnings s' = all_learnings s /\
        iteration_learnings s' = iteration_learnings s ++ discovered t /\
        total_queries s' = total_queries s + Z.of_nat (length (count_rounds t)) /\
        (origins t = [] \/ origins t = [(k, i)]) /\
        (count_rounds t = [] \/ count_rounds t = [k]) /\
        List.filter is_round t = [] /\
        List.filter is_report t = []) s.
Proof.
  unfold query_step, search_candidate.
  repeat wp_sub; cbv beta iota.
  all: summary_done.
Qed.

(** The whole inner loop, from candidate index [i] on. *)
Lemma for_queries_summary breadth k queries : forall i s,
  wp (for_queries E rag_instance provider model language on_progress
        check_cancelled breadth k i queries)
     (fun _ s' t =>
        all_learnings s' = all_learnings s /\
        iteration_learnings s' = iteration_learnings s ++ discovered t /\
        total_queries s' = total_queries s + Z.of_nat (length (count_rounds t)) /\
        Forall (fun p => fst p = k /\ (i <= snd p)%nat) (origins t) /\
        StronglySorted earlier (origins t) /\
        Forall (fun j => j = k) (count_rounds t) /\
        (length (count_rounds t) <= length queries)%nat /\
        List.filter is_round t = [] /\
        List.filter is_report t = []) s.
Proof.
  induction queries as [|query_info rest IH]; intros i s; simpl for_queries.
  { wp_step. log_simpl. repeat split; auto; try lia; constructor. }
  wp_step. eapply wp_mono; [apply query_step_summary|].
  cbv beta. intros r s1 t1 (Ha & Hi & Ht & Ho & Hc & Hr & Hp).
  assert (Ho1 : Forall (fun p => fst p = k /\ (i <= snd p)%nat) (origins t1)).
  { destruct Ho as [-> | ->]; repeat constructor. }
  assert (Hs1 : StronglySorted earlier (origins t1)).
  { destruct Ho as [-> | ->]; repeat constructor. }
  assert (Hc1 : Forall (fun j => j = k) (count_rounds t1) /\
                (length (count_rounds t1) <= 1)%nat).
  { destruct Hc as [-> | ->]; simpl; split; auto. }
  destruct Hc1 as [Hc1 Hl1].
  destruct r as [[|]|e].
  - eapply wp_mono; [apply (IH (S i) s1)|].
    cbv beta. intros r s2 t2 (Ha2 & Hi2 & Ht2 & Ho2 & Hs2 & Hc2 & Hl2 & Hr2 & Hp2).
    log_simpl. rewrite ?Hr, ?Hr2, ?Hp, ?Hp2, ?Ha2, ?Hi2, ?Ht2, ?Ha, ?Hi, ?Ht.
    repeat split; auto.
    + rewrite <- app_assoc. reflexivity.
    + rewrite Nat2Z.inj_add. lia.
    + apply Forall_app. split; [exact Ho1|].
      eapply List.Forall_impl; [|exact Ho2]. simpl. intros p [? ?]. split; [auto|lia].
    + destruct Ho as [-> | ->]; simpl; [exact Hs2|].
      constructor; [exact Hs2|].
      eapply List.Forall_impl; [|exact Ho2]. intros p [Hk Hlt].
      right. simpl. split; [auto|lia].
    + apply Forall_app. auto.
    + simpl. lia.
  - wp_step. log_simpl. rewrite ?Hr, ?Hp. repeat split; auto; simpl; lia.
  - cbv beta iota. log_simpl. rewrite ?Hr, ?Hp. repeat split; auto; simpl; lia.
Qed.

Ltac wp_loop :=
  lazymatch goal with
  | |- wp (for_queries _ _ _ _ _ _ _ _ _ _ _) _ _ =>
      eapply wp_mono; [apply for_queries_summary | cbv beta; intros ? ? ? ?]
  | |- wp (lift (generate_research_queries _ _ _ _ _ _)) _ _ =>
      apply generate_wp; intros ? ? ? ? ?
  | |- _ => wp_sub
  end.

(** A round that got past the stop checks. *)
Lemma round_work_summary breadth depth k t0 s :
  wp (round_work E query rag_instance provider model language on_progress
        check_cancelled breadth depth k t0)
     (fun r s' t =>
        (forall f, r = Ok f -> all_learnings s' = all_learnings s ++ discovered t) /\
        total_queries s' = total_queries s + Z.of_nat (length (count_rounds t)) /\
        Forall (fun p => fst p = k) (origins t) /\
        StronglySorted earlier (origins t) /\
        Forall (fun j => j = k) (count_rounds t) /\
        (0 <= breadth -> (length (count_rounds t) <= Z.to_nat breadth)%nat) /\
        List.filter is_round t = [EvRound k t0] /\
        List.filter is_report t = []) s.
Proof.
  unfold round_work.
  repeat wp_loop; cbv beta iota.
  all: log_simpl.
  all: repeat match goal with H : _ /\ _ |- _ => destruct H end.
  all: repeat match goal with
       | H : List.filter _ ?t = _ |- _ => is_var t; rewrite ?H; clear H
       end.
  all: repeat match goal with
       | H : all_learnings ?s = _ |- _ => is_var s; rewrite ?H; clear H
       | H : total_queries ?s = _ |- _ => is_var s; rewrite ?H; clear H
       end.
  all: log_simpl.
  all: repeat split; auto; try lia; try discriminate; try (constructor; fail).
  all: try match goal with
       | H : Forall _ ?l |- Forall _ ?l =>
           eapply List.Forall_impl; [|exact H]; simpl; tauto
       end.
  all: intros;
       cbn [iteration_learnings set_iteration_learnings set_world app] in *.
  - congruence.
  - match goal with
    | H : nonempty ?l = false, H' : ?l = _ |- _ =>
        destruct l; [rewrite <- H', app_nil_r; reflexivity | discriminate]
    end.
Qed.

(** A round, with its three stop checks. *)
Lemma research_iteration_summary breadth depth start_time k s :
  wp (research_iteration E query rag_instance provider model language
        on_progress check_cancelled breadth depth start_time k)
     (fun r s' t =>
        (forall f, r = Ok f -> all_learnings s' = all_learnings s ++ discovered t) /\
        total_queries s' = total_queries s + Z.of_nat (length (count_rounds t)) /\
        Forall (fun p => fst p = k) (origins t) /\
        StronglySorted earlier (origins t) /\
        Forall (fun j => j = k) (count_rounds t) /\
        (0 <= breadth -> (length (count_rounds t) <= Z.to_nat breadth)%nat) /\
        (List.filter is_round t = [] /\ count_rounds t = [] \/
         exists t0, List.filter is_round t = [EvRound k t0] /\
                    t0 - start_time <= MAX_RESEARCH_TIME /\
                    total_queries s < MAX_TOTAL_QUERIES) /\
        List.filter is_report t = []) s.
Proof.
  unfold research_iteration.
  wp_step. wp_step. wp_step.
  2:{ log_simpl. repeat split; auto; try lia; try discriminate; constructor. }
  wp_step.
  { wp_run; log_simpl; repeat split; auto; try lia; try discriminate;
      try (constructor; fail); intros; rewrite app_nil_r; reflexivity. }
  wp_step. wp_step. wp_step.
  { wp_run; log_simpl; repeat split; auto; try lia; try discriminate;
      try (constructor; fail); intros; rewrite app_nil_r; reflexivity. }
  wp_step. wp_step. wp_step.
  { wp_run; log_simpl; repeat split; auto; try lia; try discriminate;
      try (constructor; fail); intros; rewrite app_nil_r; reflexivity. }
  eapply wp_mono; [apply round_work_summary|].
  cbv beta. intros r s' t' (Ha & Ht & Ho & Hs & Hc & Hl & Hr & Hp).
  log_simpl. rewrite Hr, Hp. cbn [all_learnings total_queries set_world] in *.
  repeat split; auto.
  right. exists (now E w). repeat split; auto.
  - apply Z.ltb_ge in Heqb0. exact Heqb0.
  - apply Z.leb_gt in Heqb1. exact Heqb1.
Qed.

Lemma filter_eqb_none (j : nat) (l : list nat) :
  Forall (fun x => x <> j) l -> List.filter (Nat.eqb j) l = [].
Proof.
  induction 1 as [|x l Hx _ IH]; simpl; [reflexivity|].
  destruct (Nat.eqb_spec j x); [congruence | exact IH].
Qed.

(** The outer loop over the rounds [a], [a+1], ..., [a+n-1]. *)
Lemma for_iterations_summary breadth depth start_time n : forall a s,
  wp (for_iterations E query rag_instance provider model language
        on_progress check_cancelled breadth depth start_time (seq a n))
     (fun r s' t =>
        (r = Ok tt -> all_learnings s' = all_learnings s ++ discovered t) /\
        total_queries s' = total_queries s + Z.of_nat (length (count_rounds t)) /\
        Forall (fun p => (a <= fst p)%nat) (origins t) /\
        StronglySorted earlier (origins t) /\
        Forall (fun j => (a <= j)%nat) (count_rounds t) /\
        (0 <= breadth ->
         forall j, (length (List.filter (Nat.eqb j) (count_rounds t))
                    <= Z.to_nat breadth)%nat) /\
        (length (List.filter is_round t) <= n)%nat /\
        Forall (round_in_time start_time) (List.filter is_round t) /\
        List.filter is_report t = [] /\
        (0 <= breadth ->
         total_queries s' <=
           Z.max (total_queries s) (MAX_TOTAL_QUERIES - 1 + breadth))) s.
Proof.
  induction n as [|n IH]; intros a s; simpl seq; simpl for_iterations.
  { wp_step. log_simpl.
    repeat split; auto; try lia; try (constructor; fail);
      try (intros; simpl; lia). }
  wp_step. eapply wp_mono; [apply research_iteration_summary|].
  cbv beta. intros r s1 t1 (Ha & Ht & Ho & Hs & Hc & Hl & Hr & Hp).
  assert (Hrounds : (length (List.filter is_round t1) <= 1)%nat /\
                    Forall (round_in_time start_time) (List.filter is_round t1)).
  { destruct Hr as [[-> _] | (t0 & -> & Htime & _)]; simpl; split; auto;
      repeat constructor; exact Htime. }
  destruct Hrounds as [Hr1 Hr2].
  assert (Hbound : 0 <= breadth ->
            total_queries s1 <=
              Z.max (total_queries s) (MAX_TOTAL_QUERIES - 1 + breadth)).
  { intros Hb. specialize (Hl Hb).
    destruct Hr as [[_ Hnil] | (t0 & _ & _ & Hlt)].
    - rewrite Ht, Hnil. simpl. lia.
    - rewrite Ht. unfold MAX_TOTAL_QUERIES in *. lia. }
  assert (Ho1 : Forall (fun p => (a <= fst p)%nat) (origins t1)).
  { eapply List.Forall_impl; [|exact Ho]. simpl. intros; lia. }
  assert (Hc1 : Forall (fun j => (a <= j)%nat) (count_rounds t1)).
  { eapply List.Forall_impl; [|exact Hc]. simpl. intros; lia. }
  assert (Hq1 : 0 <= breadth ->
            forall j, (length (List.filter (Nat.eqb j) (count_rounds t1))
                       <= Z.to_nat breadth)%nat).
  { intros Hb j. specialize (Hl Hb).
    pose proof (List.filter_length_le (Nat.eqb j) (count_rounds t1)). lia. }
  destruct r as [[|]|e].
  - eapply wp_mono; [apply (IH (S a) s1)|].
    cbv beta.
    intros r s2 t2 (Ha2 & Ht2 & Ho2 & Hs2 & Hc2 & Hl2 & Hr3 & Hr4 & Hp2 & Hb2).
    log_simpl. rewrite Hp, Hp2.
    repeat match goal with |- _ /\ _ => split end.
    + intros ->. rewrite (Ha2 eq_refl), (Ha Next eq_refl), app_assoc.
      reflexivity.
    + rewrite Ht2, Ht, Nat2Z.inj_add. lia.
    + apply Forall_app. split; [exact Ho1|].
      eapply List.Forall_impl; [|exact Ho2]. simpl. intros; lia.
    + clear - Ho Hs Ho2 Hs2.
      induction Hs as [|p l Hl IHl Hp]; simpl; [exact Hs2|].
      inversion Ho as [|? ? Hpk Hol]; subst.
      constructor; [apply IHl; assumption|].
      apply Forall_app. split; [exact Hp|].
      eapply List.Forall_impl; [|exact Ho2]. intros q Hq. left. simpl in *. lia.
    + apply Forall_app. split; [exact Hc1|].
      eapply List.Forall_impl; [|exact Hc2]. simpl. intros; lia.
    + intros Hb j. rewrite List.filter_app.
      destruct (Nat.eq_dec j a) as [->|Hne].
      * rewrite (filter_eqb_none a (count_rounds t2)), app_nil_r; [auto|].
        eapply List.Forall_impl; [|exact Hc2]. simpl. intros; lia.
      * rewrite (filter_eqb_none j (count_rounds t1)); [simpl; auto|].
        eapply List.Forall_impl; [|exact Hc]. simpl. intros; lia.
    + lia.
    + apply Forall_app. auto.
    + reflexivity.
    + intros Hb. specialize (Hb2 Hb). specialize (Hbound Hb). lia.
  - wp_step. log_simpl. rewrite Hp.
    repeat split; auto; try lia.
    intros _. apply (Ha Break eq_refl).
  - cbv beta iota. log_simpl. rewrite Hp.
    repeat split; auto; try lia. discriminate.
Qed.

(** The clamps, the start notification and the round loop. *)
Lemma research_loop_summary breadth depth s :
  wp (research_loop E query rag_instance provider model language
        on_progress check_cancelled breadth depth)
     (fun r s' t =>
        (r = Ok tt -> all_learnings s' = discovered t) /\
        total_queries s' = Z.of_nat (length (count_rounds t)) /\
        StronglySorted earlier (origins t) /\
        (0 <= breadth ->
         forall j, (queries_issued_in j t
                    <= Z.to_nat (Z.min breadth MAX_QUERIES_PER_ITERATION))%nat) /\
        (rounds_executed t <= Z.to_nat (Z.min depth 5))%nat /\
        Forall (round_in_time (now E (world s))) (List.filter is_round t) /\
        List.filter is_report t = [] /\
        (0 <= breadth ->
         total_queries s' <=
           MAX_TOTAL_QUERIES - 1 + Z.min breadth MAX_QUERIES_PER_ITERATION)) s.
Proof.
  unfold research_loop, range.
  wp_step. wp_step. wp_step. wp_step. wp_step. wp_step. wp_step.
  2:{ unfold queries_issued_in, rounds_executed. log_simpl.
      repeat match goal with |- _ /\ _ => split end;
        try discriminate; try (constructor; fail); intros; simpl;
        unfold MAX_TOTAL_QUERIES, MAX_QUERIES_PER_ITERATION; lia. }
  wp_step. wp_step.
  eapply wp_mono; [apply for_iterations_summary|].
  cbv beta.
  intros r s' t' (Ha & Ht & Ho & Hs & Hc & Hl & Hr & Hr' & Hp & Hb).
  unfold queries_issued_in, rounds_executed.
  log_simpl. cbn [all_learnings total_queries set_world set_all_learnings
                  set_total_queries app] in *.
  repeat match goal with |- _ /\ _ => split end; auto.
  - intros Hb0. apply Hl. unfold MAX_QUERIES_PER_ITERATION. lia.
  - intros Hb0.
    assert (Hmin : 0 <= Z.min breadth MAX_QUERIES_PER_ITERATION)
      by (unfold MAX_QUERIES_PER_ITERATION; lia).
    specialize (Hb Hmin). unfold MAX_TOTAL_QUERIES in *. lia.
Qed.

(** ** The report phase *)

Lemma aside_app t1 t2 : aside t1 -> aside t2 -> aside (t1 ++ t2).
Proof. unfold aside. rewrite forallb_app. intros -> ->. reflexivity. Qed.

Lemma aside_cons e t : aside_event e = true -> aside t -> aside (e :: t).
Proof. unfold aside. simpl. intros -> ->. reflexivity. Qed.

Lemma quiet_aside t : quiet t -> aside t.
Proof.
  unfold quiet, aside. induction t as [|e t IH]; simpl; [easy|].
  intros [He Ht]%andb_prop. rewrite (IH Ht), andb_true_r.
  destruct e; simpl in *; congruence.
Qed.

Lemma aside_flat_map {B} (f : event -> list B) tr :
  (forall e, aside_event e = true -> f e = []) -> aside tr -> flat_map f tr = [].
Proof.
  intros Hf. unfold aside. induction tr as [|e tr IH]; simpl; [easy|].
  intros [He Htr]%andb_prop. rewrite (Hf e He). simpl. auto.
Qed.

Lemma aside_discovered tr : aside tr -> discovered tr = [].
Proof. apply aside_flat_map. intros []; simpl; congruence. Qed.

Lemma aside_origins tr : aside tr -> origins tr = [].
Proof. apply aside_flat_map. intros []; simpl; congruence. Qed.

Lemma aside_count_rounds tr : aside tr -> count_rounds tr = [].
Proof. apply aside_flat_map. intros []; simpl; congruence. Qed.

Lemma aside_rounds tr : aside tr -> List.filter is_round tr = [].
Proof.
  unfold aside. induction tr as [|e tr IH]; simpl; [easy|].
  intros [He Htr]%andb_prop. rewrite (IH Htr).
  destruct e; simpl in *; congruence.
Qed.

Lemma quiet_yielded tr : quiet tr -> yielded tr = [].
Proof. apply quiet_flat_map. intros []; simpl; congruence. Qed.

Lemma quiet_no_report_error tr : quiet tr -> List.filter is_report_error tr = [].
Proof. apply quiet_filter. intros []; simpl; congruence. Qed.

Lemma yielded_app t1 t2 : yielded (t1 ++ t2) = yielded t1 ++ yielded t2.
Proof. apply flat_map_app. Qed.

Lemma sink_events_quiet (sink : option (string -> cap W unit)) msg :
  quiet (sink_events sink msg).
Proof. destruct sink; reflexivity. Qed.

Lemma notify_with_exact sink msg (s : St W) :
  (exists w, final (notify_with sink msg s) = set_world s w) /\
  events (notify_with sink msg s) = sink_events sink msg.
Proof.
  destruct sink as [f|]; simpl.
  - unfold bind, log, lift, call; simpl.
    destruct (fst (f msg (world s))); simpl; eauto.
  - split; [exists (world s); symmetry; apply set_world_same | reflexivity].
Qed.

Lemma notify_wp_exact sink msg Q (s : St W) :
  (forall r w, Q r (set_world s w) (sink_events sink msg)) ->
  wp (notify_with sink msg) Q s.
Proof.
  intros HQ. destruct (notify_with_exact sink msg s) as [[w Hw] Ht].
  unfold wp. rewrite Hw, Ht. apply HQ.
Qed.

Lemma notify_with_ok sink msg (s : St W) :
  sink_never_raises sink -> result (notify_with sink msg s) = Ok tt.
Proof.
  intros Hs. destruct sink as [f|]; simpl; [|reflexivity].
  unfold bind, log, lift, call; simpl.
  destruct (Hs f eq_refl msg (world s)) as [[] Hf]. rewrite Hf. reflexivity.
Qed.

Lemma notify_wp_ok sink msg Q (s : St W) :
  sink_never_raises sink ->
  (forall w, Q (Ok tt) (set_world s w) (sink_events sink msg)) ->
  wp (notify_with sink msg) Q s.
Proof.
  intros Hs HQ. destruct (notify_with_exact sink msg s) as [[w Hw] Ht].
  unfold wp. rewrite Hw, Ht, (notify_with_ok sink msg s Hs). apply HQ.
Qed.

(** Symbolic execution that keeps the sink deliveries in the trace. *)
Ltac wp_exact :=
  cbv beta iota;
  lazymatch goal with
  | |- wp (notify _ _) _ _ =>
      apply notify_wp_exact; intros ? ?
  | |- wp (notify_with _ _) _ _ =>
      apply notify_wp_exact; intros ? ?
  | |- wp (yield _) _ _ => unfold yield
  | |- _ => wp_step
  end.

Ltac report_simpl :=
  repeat (progress (
    repeat first
      [ rewrite yielded_app | rewrite List.filter_app
      | rewrite app_nil_r | rewrite app_nil_l ];
    repeat match goal with
    | H : quiet ?t |- _ =>
        first [ rewrite (quiet_yielded t H)
              | rewrite (quiet_no_report_error t H) ]
    | |- context [yielded (sink_events ?k ?m)] =>
        rewrite (quiet_yielded _ (sink_events_quiet k m))
    | |- context [List.filter is_report_error (sink_events ?k ?m)] =>
        rewrite (quiet_no_report_error _ (sink_events_quiet k m))
    end;
    cbn [yielded yielded_by flat_map List.filter is_report_error app
         all_learnings iteration_learnings total_queries final_report_chunks
         set_world set_all_learnings set_iteration_learnings set_total_queries
         set_final_report_chunks])).

Ltac aside_done :=
  repeat first
    [ assumption
    | apply aside_app
    | apply aside_cons; [reflexivity|]
    | apply quiet_aside; first [assumption | apply sink_events_quiet]
    | reflexivity ].

Lemma stream_chunks_summary (on_chunk : option (string -> cap W unit)) raw :
  forall s : St W,
  wp (stream_chunks on_chunk raw)
     (fun _ s' t =>
        all_learnings s' = all_learnings s /\
        total_queries s' = total_queries s /\
        final_report_chunks s' = final_report_chunks s ++ yielded t /\
        aside t /\
        List.filter is_report_error t = []) s.
Proof.
  induction raw as [|c rest IH]; intros s; simpl stream_chunks.
  { wp_step. report_simpl. repeat split; reflexivity. }
  wp_step. wp_step.
  - wp_exact. wp_exact. wp_exact.
    + wp_exact. wp_exact. wp_exact. wp_exact.
      eapply wp_mono; [apply IH|]. cbv beta.
      intros r' s' t' (Ha & Ht & Hc & Has & He).
      report_simpl. rewrite He, Ha, Ht, Hc. report_simpl.
      repeat split; auto.
      * rewrite <- !app_assoc. reflexivity.
      * aside_done.
    + report_simpl. repeat split; auto. aside_done.
  - wp_step.
    eapply wp_mono; [apply IH|]. cbv beta.
    intros r' s' t' (Ha & Ht & Hc & Has & He).
    report_simpl. rewrite He, Ha, Ht, Hc. repeat split; auto.
Qed.

Ltac wp_report :=
  lazymatch goal with
  | |- wp (stream_chunks _ _) _ _ =>
      eapply wp_mono;
      [apply stream_chunks_summary
      | cbv beta; intros ? ? ? (? & ? & ? & ? & ?)]
  | |- wp (consume_stream _ _) _ _ => unfold consume_stream
  | |- _ => wp_exact
  end.

Ltac report_facts :=
  repeat match goal with
  | H : all_learnings ?s = _ |- _ => is_var s; rewrite ?H; clear H
  | H : total_queries ?s = _ |- _ => is_var s; rewrite ?H; clear H
  | H : final_report_chunks ?s = _ |- _ => is_var s; rewrite ?H; clear H
  | H : List.filter is_report_error ?t = _ |- _ => is_var t; rewrite ?H; clear H
  end.

(** The [try] block of the report generator. *)
Lemma report_attempt_summary original_query all
    (on_chunk : option (string -> cap W unit)) (s : St W) :
  wp (report_attempt E provider model original_query all on_chunk)
     (fun _ s' t =>
        all_learnings s' = all_learnings s /\
        total_queries s' = total_queries s /\
        final_report_chunks s' = final_report_chunks s ++ yielded t /\
        aside t /\
        List.filter is_report_error t = []) s.
Proof.
  unfold report_attempt.
  repeat wp_report; cbv beta iota.
  all: report_simpl; report_facts; report_simpl.
  all: repeat split; auto; try (rewrite <- ?app_assoc; reflexivity).
  all: aside_done.
Qed.

(** The report generator together with its consumer. *)
Lemma write_final_report_streaming_summary original_query all
    (on_chunk : option (string -> cap W unit)) (s : St W) :
  wp (write_final_report_streaming E provider model original_query all on_chunk)
     (fun _ s' t =>
        all_learnings s' = all_learnings s /\
        total_queries s' = total_queries s /\
        final_report_chunks s' = final_report_chunks s ++ yielded t /\
        aside t /\
        In (EvReport all) t) s.
Proof.
  unfold write_final_report_streaming.
  wp_step. wp_step. wp_step.
  eapply wp_mono; [apply report_attempt_summary|]. cbv beta.
  intros r s' t (Ha & Ht & Hc & Has & He).
  destruct r as [[]|e]; cbv beta iota.
  - report_simpl. repeat split; auto. simpl. auto.
  - repeat wp_report; cbv beta iota.
    all: report_simpl; report_facts; report_simpl.
    all: repeat split; auto; try (rewrite <- ?app_assoc; reflexivity);
         try (simpl; auto; fail).
    all: aside_done.
Qed.

Lemma sink_events_no_report (sink : option (string -> cap W unit)) msg :
  List.filter is_report (sink_events sink msg) = [].
Proof. destruct sink; reflexivity. Qed.

(** Lines 201-242. *)
Lemma report_phase_summary (s : St W) :
  wp (report_phase E query provider model on_progress)
     (fun r s' t =>
        total_queries s' = total_queries s /\
        aside t /\
        (all_learnings s = [] -> List.filter is_report t = []) /\
        forall res, r = Ok res ->
          learnings res = all_learnings s /\
          (all_learnings s = [] ->
             final_report res = fallback_report query /\
             t = sink_events on_progress
                   (think "Generating final comprehensive report...") ++
                 sink_events on_progress (fallback_report query)) /\
          (all_learnings s <> [] ->
             final_report res = String.concat "" (yielded t) /\
             In (EvReport (all_learnings s)) t)) s.
Proof.
  unfold report_phase.
  wp_exact. wp_exact. wp_exact.
  2:{ split; [reflexivity|]. split; [aside_done|]. split; [|discriminate].
      intros _. apply sink_events_no_report. }
  wp_exact. wp_exact. wp_exact.
  cbn [all_learnings set_world].
  destruct (all_learnings s) as [|l0 ls] eqn:Hall; cbn [nonempty].
  - wp_exact. wp_exact. wp_exact.
    + wp_exact. wp_exact. wp_exact. wp_exact.
      cbn [all_learnings set_world]. rewrite Hall.
      split; [reflexivity|]. split; [aside_done|]. split.
      { intros _. rewrite !List.filter_app, !sink_events_no_report.
        reflexivity. }
      intros res [= <-]. cbn [learnings final_report].
      repeat split; auto; try congruence.
      rewrite !app_nil_r. reflexivity.
    + split; [reflexivity|]. split; [aside_done|]. split; [|discriminate].
      intros _. rewrite !List.filter_app, !sink_events_no_report.
      reflexivity.
  - wp_exact. wp_exact. wp_exact.
    eapply wp_mono; [apply write_final_report_streaming_summary|]. cbv beta.
    intros r1 s1 t1 (Ha & Ht & Hc & Has & Hin).
    cbn [final_report_chunks set_final_report_chunks set_world all_learnings
         total_queries app] in *.
    destruct r1 as [[]|e]; cbv beta iota.
    + wp_exact. wp_exact. wp_exact. wp_exact. wp_exact. wp_exact.
      split; [exact Ht|]. split; [aside_done|]. split; [discriminate|].
      intros res [= <-]. cbn [learnings final_report].
      rewrite Ha. cbn [all_learnings set_final_report_chunks set_world].
      rewrite Hall. split; [reflexivity|]. split; [discriminate|].
      intros _. split.
      * rewrite Hc. rewrite !yielded_app.
        rewrite (quiet_yielded _ (sink_events_quiet on_progress _)).
        rewrite !app_nil_r. reflexivity.
      * rewrite !in_app_iff. auto.
    + split; [exact Ht|]. split; [aside_done|]. split; discriminate.
Qed.

Lemma no_report_yielded tr : List.filter is_report tr = [] -> yielded tr = [].
Proof.
  induction tr as [|e tr IH]; simpl; [reflexivity|].
  destruct e; simpl; try discriminate; exact IH.
Qed.

Lemma no_report_not_in tr e :
  List.filter is_report tr = [] -> is_report e = true -> ~ In e tr.
Proof.
  intros Hnil He Hin.
  assert (Hf : In e (List.filter is_report tr)) by (apply filter_In; auto).
  rewrite Hnil in Hf. exact Hf.
Qed.

(** ** The whole run *)
Lemma deep_research_body_summary breadth depth (s : St W) :
  wp (deep_research_body E query rag_instance provider model language
        on_progress check_cancelled breadth depth)
     (fun r s' t =>
        (forall res, r = Ok res ->
           learnings res = discovered t /\
           (learnings res = [] ->
              final_report res = fallback_report query /\
              List.filter is_report t = [] /\
              exists before,
                t = before ++
                    sink_events on_progress
                      (think "Generating final comprehensive report...") ++
                    sink_events on_progress (fallback_report query)) /\
           (learnings res <> [] ->
              final_report res = String.concat "" (yielded t) /\
              In (EvReport (learnings res)) t)) /\
        StronglySorted earlier (origins t) /\
        (0 <= breadth ->
         forall j, (queries_issued_in j t
                    <= Z.to_nat (Z.min breadth MAX_QUERIES_PER_ITERATION))%nat) /\
        (rounds_executed t <= Z.to_nat (Z.min depth 5))%nat /\
        Forall (round_in_time (now E (world s))) (List.filter is_round t) /\
        total_queries s' = Z.of_nat (queries_issued t) /\
        (0 <= breadth ->
         total_queries s' <=
           MAX_TOTAL_QUERIES - 1 + Z.min breadth MAX_QUERIES_PER_ITERATION)) s.
Proof.
  unfold deep_research_body.
  apply wp_bind. eapply wp_mono; [apply research_loop_summary|]. cbv beta.
  intros r1 s1 t1 (Ha & Ht & Hs & Hq & Hr & Htime & Hp & Hb).
  destruct r1 as [[]|e].
  - eapply wp_mono; [apply report_phase_summary|]. cbv beta.
    intros r2 s2 t2 (Htot & Has & Hnorep & Hres).
    unfold queries_issued_in, rounds_executed, queries_issued in *.
    rewrite origins_app, count_rounds_app, discovered_app, !List.filter_app.
    rewrite (aside_origins _ Has), (aside_count_rounds _ Has),
      (aside_discovered _ Has), (aside_rounds _ Has), !app_nil_r.
    specialize (Ha eq_refl).
    repeat match goal with |- _ /\ _ => split end; auto; try congruence.
    2:{ intros Hb0. rewrite Htot. auto. }
    intros res ->. destruct (Hres res eq_refl) as (Hl & Hempty & Hfull).
    rewrite Hl, Ha. split; [reflexivity|]. split.
    + intros Hnil. rewrite <- Ha in Hnil.
      destruct (Hempty Hnil) as [Hf Hev]. split; [exact Hf|].
      split; [rewrite Hp, (Hnorep Hnil); reflexivity|].
      exists t1. rewrite Hev. reflexivity.
    + intros Hne. rewrite <- Ha in Hne.
      destruct (Hfull Hne) as [Hf Hin]. split.
      * rewrite Hf, yielded_app, (no_report_yielded _ Hp). reflexivity.
      * rewrite <- Ha. apply in_or_app. right. exact Hin.
  - cbv beta iota.
    unfold queries_issued_in, rounds_executed, queries_issued in *.
    repeat match goal with |- _ /\ _ => split end; auto. discriminate.
Qed.

(** ** Runs with well-behaved callbacks return *)

Lemma safe_ret {S A} (a : A) : safe (S := S) (ret a).
Proof. intros s. exists a. reflexivity. Qed.

Lemma safe_log {S} (e : event) : safe (S := S) (log e).
Proof. intros s. exists tt. reflexivity. Qed.

Lemma safe_gets {S A} (f : S -> A) : safe (gets f).
Proof. intros s. exists (f s). reflexivity. Qed.

Lemma safe_modify {S} (f : S -> S) : safe (modify f).
Proof. intros s. exists tt. reflexivity. Qed.

Lemma safe_bind {S A B} (m : M S A) (f : A -> M S B) :
  safe m -> (forall a, safe (f a)) -> safe (bind m f).
Proof.
  intros Hm Hf s. unfold bind. destruct (Hm s) as [a Ha]. rewrite Ha.
  destruct (Hf a (final (m s))) as [b Hb]. exists b. exact Hb.
Qed.

Lemma safe_try {S A} (m : M S A) (h : exn -> M S A) :
  (forall e, safe (h e)) -> safe (try_except m h).
Proof.
  intros Hh s. unfold try_except. destruct (result (m s)) as [a|e] eqn:Hr.
  - exists a. exact Hr.
  - destruct (Hh e (final (m s))) as [b Hb]. exists b. exact Hb.
Qed.

Lemma safe_lift {A} (m : M W A) : safe m -> safe (lift m).
Proof. intros Hm s. destruct (Hm (world s)) as [a Ha]. exists a. exact Ha. Qed.

Lemma safe_call {A} (c : cap W A) : never_raises c -> safe (call c).
Proof. intros Hc w. destruct (Hc w) as [a Ha]. exists a. exact Ha. Qed.

Lemma notify_with_safe sink msg :
  sink_never_raises sink -> safe (S := St W) (notify_with sink msg).
Proof. intros Hs s. exists tt. apply notify_with_ok. exact Hs. Qed.

Lemma cancelled_safe site :
  probe_never_raises check_cancelled -> safe (cancelled check_cancelled site).
Proof.
  intros Hp. unfold cancelled. destruct check_cancelled as [probe|] eqn:Hc;
    [|apply safe_ret].
  apply safe_bind; [apply safe_lift, safe_call, (Hp probe eq_refl)|].
  intros b. apply safe_bind; [apply safe_log|]. intros _. apply safe_ret.
Qed.

Lemma generate_safe q n prior :
  safe (generate_research_queries E q n prior provider model).
Proof.
  intros w.
  destruct (generate_research_queries_returns E q n prior provider model w)
    as (qs & Hr & _).
  exists qs. exact Hr.
Qed.

Lemma process_safe q docs n f :
  safe (process_research_results E q docs n f provider model).
Proof. intros w. apply process_research_results_returns. Qed.

Ltac safe_go :=
  repeat first
    [ apply safe_ret | apply safe_log | apply safe_gets | apply safe_modify
    | apply notify_with_safe; assumption
    | apply cancelled_safe; assumption
    | apply safe_lift, generate_safe
    | apply safe_lift, process_safe
    | apply safe_try; intros ?
    | apply safe_bind; [|intros ?]
    | match goal with
      | |- safe (if ?b then _ else _) => destruct b
      | |- safe (match ?x with _ => _ end) => destruct x
      end ].

Section WellBehavedCallbacks.
Hypothesis sink_ok : sink_never_raises on_progress.
Hypothesis probe_ok : probe_never_raises check_cancelled.

Lemma yield_safe c : safe (S := St W) (yield c).
Proof. unfold yield. safe_go. Qed.

Lemma stream_chunks_safe raw : safe (stream_chunks on_progress raw).
Proof.
  induction raw as [|c rest IH]; simpl; [apply safe_ret|].
  apply safe_bind; [|intros _; exact IH].
  destruct (truthy c); [|apply safe_ret].
  apply safe_bind; [apply notify_with_safe; assumption|].
  intros _. apply yield_safe.
Qed.






End WellBehavedCallbacks.

(** * Properties of the specification *)

Lemma in_discovered e tr :
  In e tr -> exists before after, discovered tr = before ++ learnt e ++ after.
Proof.
  intros Hin. destruct (in_split _ _ Hin) as (l1 & l2 & ->).
  exists (discovered l1), (discovered l2).
  rewrite discovered_app. reflexivity.
Qed.

Lemma rounds_in_time_all start_time tr :
  Forall (round_in_time start_time) (List.filter is_round tr) ->
  Forall (round_in_time start_time) tr.
Proof.
  induction tr as [|e tr IH]; simpl; [constructor|].
  destruct e; simpl; intros H;
    try (constructor; [exact I | apply IH; exact H]).
  inversion H; subst. constructor; [assumption | apply IH; assumption].
Qed.




(** C10. When the probe answers true at the check made before candidate i of
    round k, every batch of learnings extracted earlier in that round is
    still part of the returned learnings: the round-local buffer is appended
    to the cumulative list although the round was cut short. *)
Theorem C10_partial_round_learnings_kept breadth depth w r k i j ls :
  result (deep_research E query rag_instance provider model language
            on_progress check_cancelled breadth depth w) = Ok r ->
  In (EvProbe (BeforeQuery k i) true)
      (events (deep_research E query rag_instance provider model language
            on_progress check_cancelled breadth depth w)) ->
  In (EvLearnings k j ls)
      (events (deep_research E query rag_instance provider model language
            on_progress check_cancelled breadth depth w)) ->
  exists before after, learnings r = before ++ ls ++ after.
Proof.
  intros Hr _ Hin.
  pose proof (deep_research_body_summary breadth depth (enter w)) as H.
  unfold wp in H. destruct H as (Hres & _).
  change (result (deep_research_body E query rag_instance provider model
                    language on_progress check_cancelled breadth depth
                    (enter w)) = Ok r) in Hr.
  destruct (Hres r Hr) as (Hl & _). rewrite Hl.
  apply (in_discovered _ _ Hin).
Qed.

(** C4. For every run that returns with no learnings, the report generator
    was never started, the final report is the fixed fallback text built
    around the question (it quotes the question verbatim and invites
    rephrasing or re-indexing), and when a sink is supplied the last thing
    it received is that text. *)
Theorem C4_fallback_report breadth depth w r :
  result (deep_research E query rag_instance provider model language
            on_progress check_cancelled breadth depth w) = Ok r ->
  learnings r = [] ->
  (forall all, ~ In (EvReport all)
      (events (deep_research E query rag_instance provider model language
            on_progress check_cancelled breadth depth w))) /\
  final_report r = fallback_report query /\
  final_report r =
    "# Research Results

Unable to find sufficient information in the codebase to answer: "
    +:+ query +:+
    "

Please try rephrasing your question or ensure the repository has been properly indexed." /\
  (forall sink, on_progress = Some sink ->
   exists before,
     events (deep_research E query rag_instance provider model language
            on_progress check_cancelled breadth depth w) = before ++ [EvSink (fallback_report query)]).
Proof.
  intros Hr Hnil.
  pose proof (deep_research_body_summary breadth depth (enter w)) as H.
  unfold wp in H. destruct H as (Hres & _).
  change (result (deep_research_body E query rag_instance provider model
                    language on_progress check_cancelled breadth depth
                    (enter w)) = Ok r) in Hr.
  destruct (Hres r Hr) as (_ & Hempty & _).
  destruct (Hempty Hnil) as (Hf & Hnorep & before & Hev).
  split; [|split; [exact Hf | split; [exact Hf|]]].
  - intros all. apply no_report_not_in; [exact Hnorep | reflexivity].
  - intros sink Hsink.
    change (events (deep_research E query rag_instance provider model language
            on_progress check_cancelled breadth depth w)) with
      (events (deep_research_body E query rag_instance provider model
                 language on_progress check_cancelled breadth depth (enter w))).
    rewrite Hev, Hsink. cbn [sink_events].
    exists (before ++ [EvSink (think "Generating final comprehensive report...")]).
    rewrite <- app_assoc. reflexivity.
Qed.

(** C5, as the code has it.  The time ceiling is tested once per round, at
    its top: every round that starts does so at a clock reading at most 300
    seconds after the start of the run.  (No test is made before the
    individual queries of a round that has started.) *)
Theorem C5_rounds_start_within_ceiling breadth depth w :
  Forall (round_in_time (now E w))
      (events (deep_research E query rag_instance provider model language
            on_progress check_cancelled breadth depth w)).
Proof.
  pose proof (deep_research_body_summary breadth depth (enter w)) as H.
  unfold wp in H. destruct H as (_ & _ & _ & _ & Htime & _).
  apply rounds_in_time_all. exact Htime.
Qed.

(** C6, as the code has it.  For non-negative tunables, at most
    min(depth, 5) rounds get past the stop checks (possibly none), and in
    every round the counter is incremented at most min(breadth, 5) times. *)
Theorem C6_round_and_query_bounds breadth depth w :
  0 <= breadth -> 0 <= depth ->
  0 <= Z.of_nat (rounds_executed
      (events (deep_research E query rag_instance provider model language
            on_progress check_cancelled breadth depth w))) <= Z.min depth 5 /\
  forall k,
    Z.of_nat (queries_issued_in k
        (events (deep_research E query rag_instance provider model language
            on_progress check_cancelled breadth depth w)))
    <= Z.min breadth MAX_QUERIES_PER_ITERATION.
Proof.
  intros Hb Hd.
  pose proof (deep_research_body_summary breadth depth (enter w)) as H.
  unfold wp in H. destruct H as (_ & _ & Hq & Hr & _).
  change (events (deep_research E query rag_instance provider model language
            on_progress check_cancelled breadth depth w)) with
    (events (deep_research_body E query rag_instance provider model
               language on_progress check_cancelled breadth depth (enter w))).
  split; [lia|].
  intros k. specialize (Hq Hb k). unfold MAX_QUERIES_PER_ITERATION in *. lia.
Qed.

(** The counter stays below 20 + min(breadth, 5): a round starts only while
    it is below 20 and adds at most min(breadth, 5). *)
Lemma total_queries_bound breadth depth w :
  0 <= breadth ->
  total_queries
    (final (deep_research_body E query rag_instance provider model language
              on_progress check_cancelled breadth depth (enter w)))
  <= MAX_TOTAL_QUERIES - 1 + Z.min breadth MAX_QUERIES_PER_ITERATION.
Proof.
  intros Hb.
  pose proof (deep_research_body_summary breadth depth (enter w)) as H.
  unfold wp in H. destruct H as (_ & _ & _ & _ & _ & _ & Hbound).
  apply Hbound. exact Hb.
Qed.

(** ** Failure of the report synthesis *)





Section ReportFailure.
Hypothesis sink_ok : sink_never_raises on_progress.



End ReportFailure.



(** ** Failures of the capabilities *)






(** ** The stop conditions of the round loop *)








(** * Further properties of the code *)

(** ** providers.py *)

Lemma unsupported_eqb :
  unsupported provider ->
  String.eqb provider "openai" = false /\ String.eqb provider "google" = false.
Proof. intros [H1 H2]. split; apply String.eqb_neq; assumption. Qed.

(** X1. [generate_research_queries] never raises, and when [num_queries] is
    not negative it returns at most [num_queries] candidates. *)
Theorem X1_generate_queries_bounded q n prior w :
  0 <= n ->
  exists qs,
    result (generate_research_queries E q n prior provider model w) = Ok qs /\
    Z.of_nat (length qs) <= n.
Proof.
  intros Hn.
  destruct (generate_research_queries_returns E q n prior provider model w)
    as (qs & Hr & Hlen).
  exists qs. split; [exact Hr|]. specialize (Hlen Hn). lia.
Qed.


(** X3. Only the first ten documents reach the extraction: the outcome for
    a list of documents is the outcome for its first ten. *)
Theorem X3_extraction_reads_top_ten q docs n f w :
  process_research_results E q docs n f provider model w =
  process_research_results E q (take 10 docs) n f provider model w.
Proof.
  unfold process_research_results, format_documents.
  rewrite take_take.
  replace (nonempty (take 10 docs)) with (nonempty docs)
    by (destruct docs; reflexivity).
  reflexivity.
Qed.

Lemma format_documents_without_text docs :
  Forall without_text docs -> format_documents docs = [].
Proof.
  unfold format_documents. generalize 10%nat. intros n Hdocs. revert n.
  induction Hdocs as [|doc docs Hdoc _ IH]; intros [|n]; try reflexivity.
  cbn [take omap list_omap]. unfold format_document at 1.
  destruct Hdoc as [-> | ->]; cbn; apply IH.
Qed.

(** X4. When no document carries text (in particular when there is no
    document at all), extraction reports no findings without any model
    call: the world is left as it was. *)
Theorem X4_extraction_without_text q docs n f w :
  Forall without_text docs ->
  process_research_results E q docs n f provider model w
    = Out (Ok no_findings) w [EvExtract q].
Proof.
  intros Hdocs. unfold process_research_results.
  rewrite (format_documents_without_text docs Hdocs).
  unfold bind, log, ret. cbn [result final events nonempty].
  destruct (nonempty docs); reflexivity.
Qed.

Lemma process_research_results_bounds q docs n f w :
  exists p,
    result (process_research_results E q docs n f provider model w) = Ok p /\
    (0 <= n -> (length (learnings_of p) <= Z.to_nat n)%nat) /\
    (0 <= f -> (length (follow_up_questions p) <= Z.to_nat f)%nat).
Proof.
  unfold process_research_results, bind, try_except, log, call, ret; simpl.
  assert (Hnone : exists p, Ok no_findings = Ok p /\
            (0 <= n -> (length (learnings_of p) <= Z.to_nat n)%nat) /\
            (0 <= f -> (length (follow_up_questions p) <= Z.to_nat f)%nat)).
  { exists no_findings. split; [reflexivity|]. split; intros; simpl; lia. }
  destruct (nonempty docs); simpl; [|exact Hnone].
  destruct (nonempty (format_documents docs)); simpl; [|exact Hnone].
  destruct (fst (get_model_config E provider model w)); simpl; [|exact Hnone].
  destruct (String.eqb provider "openai"); simpl.
  { destruct (fst (openai_learnings E _ _ _ _ _ _)) as [[[ls fs]|]|]; simpl;
      try exact Hnone.
    eexists. split; [reflexivity|]. simpl.
    split; intros; apply slice_to_length; assumption. }
  destruct (String.eqb provider "google"); simpl.
  { destruct (fst (google_learnings E _ _ _ _ _ _)) as [[[ls fs]|]|]; simpl;
      try exact Hnone.
    eexists. split; [reflexivity|]. simpl.
    split; intros; apply slice_to_length; assumption. }
  exact Hnone.
Qed.


Lemma length_omap_le {A B} (f : A -> option B) (l : list A) :
  (length (omap f l) <= length l)%nat.
Proof.
  induction l as [|x l IH]; [reflexivity|].
  cbn [omap list_omap]. destruct (f x); simpl; lia.
Qed.

(** X6. The prompt of the extraction lists at most ten documents, never
    more than were retrieved, and every entry starts with the "File: "
    header. *)
Theorem X6_format_documents docs :
  (length (format_documents docs) <= Nat.min 10 (length docs))%nat /\
  Forall (fun entry => exists rest, entry = "File: " +:+ rest)
         (format_documents docs).
Proof.
  unfold format_documents. split.
  - pose proof (length_omap_le format_document (take 10 docs)) as H.
    rewrite length_take in H. exact H.
  - generalize (take 10 docs). intros l.
    induction l as [|doc l IH]; [constructor|].
    cbn [omap list_omap]. unfold format_document at 1.
    destruct (text doc) as [body|]; [|exact IH].
    destruct (truthy body); [|exact IH].
    constructor; [|exact IH]. eexists. reflexivity.
Qed.

(** ** Properties of logs that add up *)

Lemma basic_app t1 t2 : basic t1 -> basic t2 -> basic (t1 ++ t2).
Proof. unfold basic. rewrite forallb_app. intros -> ->. reflexivity. Qed.

Lemma basic_additive : additive basic.
Proof. split; [auto | apply basic_app]. Qed.

Lemma notify_with_basic sink msg : emits (S := St W) basic (notify_with sink msg).
Proof.
  intros s. destruct (notify_with_exact sink msg s) as [_ ->].
  destruct sink; reflexivity.
Qed.

Lemma cancelled_basic site : emits basic (cancelled check_cancelled site).
Proof.
  intros s. unfold cancelled. destruct check_cancelled as [probe|]; [|reflexivity].
  unfold bind, lift, call, log, ret; simpl.
  destruct (fst (probe (world s))); reflexivity.
Qed.

Lemma process_basic q docs n f :
  emits basic (lift (W := W) (process_research_results E q docs n f provider model)).
Proof.
  intros s. unfold lift; cbn [events].
  unfold process_research_results, bind, try_except, log, call, ret; simpl.
  destruct (nonempty docs); simpl; [|reflexivity].
  destruct (nonempty (format_documents docs)); simpl; [|reflexivity].
  destruct (fst (get_model_config E provider model (world s))); simpl;
    [|reflexivity].
  destruct (String.eqb provider "openai"); simpl.
  { destruct (fst (openai_learnings E _ _ _ _ _ _)) as [[[? ?]|]|]; reflexivity. }
  destruct (String.eqb provider "google"); simpl.
  { destruct (fst (google_learnings E _ _ _ _ _ _)) as [[[? ?]|]|]; reflexivity. }
  reflexivity.
Qed.

Lemma generate_events q n prior w :
  exists rest,
    events (generate_research_queries E q n prior provider model w)
    = EvGenerate n prior :: rest /\
    (rest = [] \/ exists e, rest = [EvGenerateError e]).
Proof.
  unfold generate_research_queries, bind, try_except, log, call, ret; simpl.
  destruct (fst (get_model_config E provider model w)); simpl; [|eauto].
  destruct (String.eqb provider "openai"); simpl.
  { destruct (fst (openai_queries E _ _ _ _ _)) as [[?|]|]; simpl; eauto. }
  destruct (String.eqb provider "google"); simpl.
  { destruct (fst (google_queries E _ _ _ _ _)) as [[?|]|]; simpl; eauto. }
  eauto.
Qed.

Section TraceInvariants.
Variable P : list event -> Prop.
Hypothesis P_additive : additive P.

Lemma emits_nil : P [].
Proof. apply P_additive. reflexivity. Qed.

Lemma emits_ret {S A} (a : A) : emits P (ret a : M S A).
Proof. intros s. exact emits_nil. Qed.

Lemma emits_raise {S A} (e : exn) : emits P (raise e : M S A).
Proof. intros s. exact emits_nil. Qed.

Lemma emits_gets {S A} (f : S -> A) : emits P (gets f).
Proof. intros s. exact emits_nil. Qed.

Lemma emits_modify {S} (f : S -> S) : emits P (modify f).
Proof. intros s. exact emits_nil. Qed.

Lemma emits_log {S} (e : event) : P [e] -> emits P (log e : M S unit).
Proof. intros He s. exact He. Qed.

Lemma emits_call {A} (c : cap W A) : emits P (lift (W := W) (call c)).
Proof. intros s. exact emits_nil. Qed.

Lemma emits_bind {S A B} (m : M S A) (f : A -> M S B) :
  emits P m -> (forall a, emits P (f a)) -> emits P (bind m f).
Proof.
  intros Hm Hf s. unfold bind. destruct (result (m s)) as [a|e].
  - cbn [events]. apply P_additive; [apply Hm | apply Hf].
  - apply Hm.
Qed.

(** The same, when the continuation only has to cope with the values the
    first computation can return. *)
Lemma emits_bind_result {S A B} (R : A -> Prop) (m : M S A) (f : A -> M S B) :
  (forall s a, result (m s) = Ok a -> R a) ->
  emits P m -> (forall a, R a -> emits P (f a)) -> emits P (bind m f).
Proof.
  intros HR Hm Hf s. unfold bind. destruct (result (m s)) as [a|e] eqn:Hr.
  - cbn [events]. apply P_additive; [apply Hm | apply Hf; eapply HR; exact Hr].
  - apply Hm.
Qed.

Lemma emits_try {S A} (m : M S A) (h : exn -> M S A) :
  emits P m -> (forall e, emits P (h e)) -> emits P (try_except m h).
Proof.
  intros Hm Hh s. unfold try_except. destruct (result (m s)) as [a|e].
  - apply Hm.
  - cbn [events]. apply P_additive; [apply Hm | apply Hh].
Qed.

Lemma emits_of_basic {S A} (m : M S A) : emits basic m -> emits P m.
Proof. intros Hm s. apply P_additive. apply Hm. Qed.

Lemma emits_generate q n prior :
  (forall e, is_generate e = true -> P [e]) ->
  emits P (lift (W := W) (generate_research_queries E q n prior provider model)).
Proof.
  intros Hg s. unfold lift; cbn [events].
  destruct (generate_events q n prior (world s)) as (rest & -> & Hrest).
  change (P ([EvGenerate n prior] ++ rest)).
  apply P_additive; [apply Hg; reflexivity|].
  destruct Hrest as [-> | [e ->]]; [exact emits_nil | apply Hg; reflexivity].
Qed.

(** Structural steps; what is left are the log entries that are not basic
    and the calls of the functions named in [ext]. *)
Ltac emits_with ext :=
  repeat first
    [ ext
    | apply emits_ret | apply emits_raise | apply emits_gets
    | apply emits_modify | apply emits_call
    | apply emits_of_basic;
      first [ apply notify_with_basic | apply cancelled_basic
            | apply process_basic ]
    | apply emits_bind; [|intros ?]
    | apply emits_try; [|intros ?]
    | match goal with
      | |- emits _ (if ?b then _ else _) => destruct b
      | |- emits _ (match ?x with _ => _ end) => destruct x
      | |- emits _ (let _ := _ in _) => cbv zeta
      end ].

Lemma emits_query_step breadth k i query_info :
  (forall e, is_candidate e = true -> P [e]) ->
  emits P (query_step E rag_instance provider model language on_progress
             check_cancelled breadth k i query_info).
Proof.
  intros Hc.
  unfold query_step, search_candidate, retrieve_and_extract, notify, clock.
  emits_with ltac:(first [ apply emits_log; apply Hc; reflexivity
                         | apply emits_log; apply P_additive; reflexivity ]).
Qed.

Lemma emits_for_queries breadth k :
  (forall i query_info,
     emits P (query_step E rag_instance provider model language on_progress
                check_cancelled breadth k i query_info)) ->
  forall queries i,
    emits P (for_queries E rag_instance provider model language on_progress
               check_cancelled breadth k i queries).
Proof.
  intros Hstep queries.
  induction queries as [|q rest IH]; intros i; cbn [for_queries].
  - apply emits_ret.
  - apply emits_bind; [apply Hstep|].
    intros [|]; [apply IH | apply emits_ret].
Qed.

Lemma emits_round_work breadth depth k t0 :
  P [EvRound k t0] ->
  (forall e, is_generate e = true -> P [e]) ->
  (forall i query_info,
     emits P (query_step E rag_instance provider model language on_progress
                check_cancelled breadth k i query_info)) ->
  emits P (round_work E query rag_instance provider model language
             on_progress check_cancelled breadth depth k t0).
Proof.
  intros Hround Hgen Hstep. unfold round_work, notify.
  emits_with ltac:(first [ apply emits_for_queries; exact Hstep
                         | apply emits_generate; exact Hgen
                         | apply emits_log; exact Hround ]).
Qed.

Lemma emits_research_iteration breadth depth start_time k :
  (forall t0,
     emits P (round_work E query rag_instance provider model language
                on_progress check_cancelled breadth depth k t0)) ->
  emits P (research_iteration E query rag_instance provider model language
             on_progress check_cancelled breadth depth start_time k).
Proof.
  intros Hwork. unfold research_iteration, notify, clock.
  emits_with ltac:(apply Hwork).
Qed.

Lemma emits_for_iterations breadth depth start_time :
  (forall k t0,
     emits P (round_work E query rag_instance provider model language
                on_progress check_cancelled breadth depth k t0)) ->
  forall iterations,
    emits P (for_iterations E query rag_instance provider model language
               on_progress check_cancelled breadth depth start_time
               iterations).
Proof.
  intros Hwork iterations.
  induction iterations as [|k rest IH]; cbn [for_iterations].
  - apply emits_ret.
  - apply emits_bind; [apply emits_research_iteration; apply Hwork|].
    intros [|]; [apply IH | apply emits_ret].
Qed.

Lemma emits_research_loop breadth depth :
  (forall k t0,
     emits P (round_work E query rag_instance provider model language
                on_progress check_cancelled
                (Z.min breadth MAX_QUERIES_PER_ITERATION) (Z.min depth 5)
                k t0)) ->
  emits P (research_loop E query rag_instance provider model language
             on_progress check_cancelled breadth depth).
Proof.
  intros Hwork. unfold research_loop, notify, clock.
  emits_with ltac:(apply emits_for_iterations; exact Hwork).
Qed.

Lemma emits_stream_chunks (on_chunk : option (string -> cap W unit)) raw :
  (forall c, P [EvYield c]) ->
  emits P (stream_chunks on_chunk raw).
Proof.
  intros Hy. induction raw as [|c rest IH]; cbn [stream_chunks].
  - apply emits_ret.
  - apply emits_bind; [|intros _; exact IH].
    unfold yield. emits_with ltac:(apply emits_log; apply Hy).
Qed.

Lemma emits_report_phase :
  (forall e, is_report e = true -> P [e]) ->
  emits P (report_phase E query provider model on_progress).
Proof.
  intros Hrep.
  unfold report_phase, write_final_report_streaming, report_attempt,
    consume_stream, yield, notify.
  emits_with ltac:(first [ apply emits_stream_chunks; intros c; apply Hrep;
                           reflexivity
                         | apply emits_log; apply Hrep; reflexivity ]).
Qed.

(** A property that holds for the log of every round and for the entries
    of the report generator holds for the log of every run. *)
Lemma emits_deep_research_body breadth depth :
  (forall k t0,
     emits P (round_work E query rag_instance provider model language
                on_progress check_cancelled
                (Z.min breadth MAX_QUERIES_PER_ITERATION) (Z.min depth 5)
                k t0)) ->
  (forall e, is_report e = true -> P [e]) ->
  emits P (deep_research_body E query rag_instance provider model language
             on_progress check_cancelled breadth depth).
Proof.
  intros Hwork Hrep. unfold deep_research_body.
  apply emits_bind; [apply emits_research_loop; exact Hwork|].
  intros _. apply emits_report_phase. exact Hrep.
Qed.
End TraceInvariants.

(** ** The budget of a run *)

Lemma basic_quiet tr : basic tr -> quiet tr.
Proof.
  unfold basic, quiet. induction tr as [|e tr IH]; simpl; [easy|].
  intros [He Htr]%andb_prop. rewrite (IH Htr).
  destruct e; simpl in *; congruence.
Qed.

Lemma quiet_retrievals tr : quiet tr -> List.filter is_retrieve tr = [].
Proof. apply quiet_filter. intros []; simpl; congruence. Qed.

Lemma within_budget_additive : additive within_budget.
Proof.
  unfold within_budget, retrievals, queries_issued. split.
  - intros t Ht%basic_quiet.
    rewrite (quiet_discovered t Ht), (quiet_retrievals t Ht),
      (quiet_count_rounds t Ht). simpl. lia.
  - intros t1 t2 [H1 H1'] [H2 H2'].
    rewrite discovered_app, count_rounds_app, List.filter_app, !length_app.
    lia.
Qed.

Lemma process_wp q docs n f Q (s : St W) :
  (forall p w t, quiet t ->
     (0 <= n -> (length (learnings_of p) <= Z.to_nat n)%nat) ->
     Q (Ok p) (set_world s w) t) ->
  wp (lift (process_research_results E q docs n f provider model)) Q s.
Proof.
  intros HQ. unfold wp, lift; cbn [result final events].
  destruct (process_research_results_bounds q docs n f (world s))
    as (p & Hr & Hlen & _).
  rewrite Hr. apply HQ; [apply process_research_results_quiet | exact Hlen].
Qed.

Lemma query_step_budget breadth k i query_info :
  emits within_budget
    (query_step E rag_instance provider model language on_progress
       check_cancelled breadth k i query_info).
Proof.
  intros s.
  change (wp (query_step E rag_instance provider model language on_progress
                check_cancelled breadth k i query_info)
             (fun _ _ t => within_budget t) s).
  unfold query_step, search_candidate, retrieve_and_extract.
  repeat first [ apply process_wp; intros ? ? ? ? ? | wp_step ].
  all: cbv beta iota; unfold within_budget, retrievals, queries_issued.
  all: log_simpl.
  all: repeat match goal with
       | H : quiet ?t |- _ => rewrite (quiet_retrievals t H)
       end.
  all: log_simpl; simpl; try lia.
Qed.

Lemma deep_research_body_budget breadth depth :
  emits within_budget
    (deep_research_body E query rag_instance provider model language
       on_progress check_cancelled breadth depth).
Proof.
  apply (emits_deep_research_body _ within_budget_additive).
  - intros k t0.
    apply (emits_round_work _ within_budget_additive).
    + unfold within_budget, retrievals, queries_issued; simpl; lia.
    + intros []; try discriminate; intros _;
        unfold within_budget, retrievals, queries_issued; simpl; lia.
    + intros i query_info. apply query_step_budget.
  - intros []; try discriminate; intros _;
      unfold within_budget, retrievals, queries_issued; simpl; lia.
Qed.

(** X7. For a non-negative breadth, a run calls the retriever at most once
    for each increment of the query counter, the counter is incremented at
    most 24 times, and a run that returns has at most three learnings for
    each retrieval call. *)
Theorem X7_retrieval_budget breadth depth w :
  0 <= breadth ->
  (retrievals
     (events (deep_research E query rag_instance provider model language
                on_progress check_cancelled breadth depth w))
   <= queries_issued
        (events (deep_research E query rag_instance provider model language
                   on_progress check_cancelled breadth depth w)) <= 24)%nat /\
  forall r,
    result (deep_research E query rag_instance provider model language
              on_progress check_cancelled breadth depth w) = Ok r ->
    (length (learnings r)
     <= 3 * retrievals
          (events (deep_research E query rag_instance provider model language
                     on_progress check_cancelled breadth depth w)))%nat.
Proof.
  intros Hb.
  pose proof (deep_research_body_summary breadth depth (enter w)) as H.
  pose proof (deep_research_body_budget breadth depth (enter w)) as [Hl Hq].
  unfold wp in H. destruct H as (Hres & _ & _ & _ & _ & Htot & Hbound).
  specialize (Hbound Hb). rewrite Htot in Hbound.
  change (events (deep_research E query rag_instance provider model language
            on_progress check_cancelled breadth depth w)) with
    (events (deep_research_body E query rag_instance provider model
               language on_progress check_cancelled breadth depth (enter w))).
  change (result (deep_research E query rag_instance provider model language
            on_progress check_cancelled breadth depth w)) with
    (result (deep_research_body E query rag_instance provider model
               language on_progress check_cancelled breadth depth (enter w))).
  split.
  - split; [exact Hq|]. unfold MAX_TOTAL_QUERIES, MAX_QUERIES_PER_ITERATION in Hbound.
    lia.
  - intros r Hr. destruct (Hres r Hr) as (-> & _). exact Hl.
Qed.

(** ** Runs without candidates *)

Lemma no_retrieval_additive :
  additive (fun t => List.filter is_retrieve t = []).
Proof.
  split.
  - intros t Ht%basic_quiet. apply quiet_retrievals. exact Ht.
  - intros t1 t2 H1 H2. rewrite List.filter_app, H1, H2. reflexivity.
Qed.

Lemma report_phase_no_retrieval (s : St W) :
  List.filter is_retrieve
    (events (report_phase E query provider model on_progress s)) = [].
Proof.
  apply (emits_report_phase _ no_retrieval_additive).
  intros []; try discriminate; reflexivity.
Qed.

Lemma report_phase_aside (s : St W) :
  wp (report_phase E query provider model on_progress)
     (fun _ _ t => aside t /\ List.filter is_retrieve t = []) s.
Proof.
  pose proof (report_phase_summary s) as (_ & Has & _).
  split; [exact Has | apply report_phase_no_retrieval].
Qed.

Lemma generate_none q n prior w :
  unsupported provider \/ n = 0 ->
  result (generate_research_queries E q n prior provider model w) = Ok [].
Proof.
  intros Hnone.
  unfold generate_research_queries, bind, try_except, log, call, ret; simpl.
  destruct (fst (get_model_config E provider model w)); simpl; [|reflexivity].
  destruct Hnone as [Hu | ->].
  - destruct (unsupported_eqb Hu) as [-> ->]. reflexivity.
  - destruct (String.eqb provider "openai"); simpl.
    { destruct (fst (openai_queries E _ _ _ _ _)) as [[?|]|]; reflexivity. }
    destruct (String.eqb provider "google"); simpl.
    { destruct (fst (google_queries E _ _ _ _ _)) as [[?|]|]; reflexivity. }
    reflexivity.
Qed.

Lemma generate_wp_none q n prior Q (s : St W) :
  unsupported provider \/ n = 0 ->
  (forall w t, quiet t -> Q (Ok []) (set_world s w) t) ->
  wp (lift (generate_research_queries E q n prior provider model)) Q s.
Proof.
  intros Hnone HQ. unfold wp, lift; cbn [result final events].
  rewrite (generate_none q n prior (world s) Hnone).
  apply HQ. apply generate_research_queries_quiet.
Qed.

Ltac log_clean :=
  log_simpl;
  repeat match goal with
  | H : quiet ?t |- _ => rewrite (quiet_retrievals t H)
  end;
  log_simpl.

Lemma round_work_no_candidates breadth depth k t0 (s : St W) :
  unsupported provider \/ breadth = 0 ->
  wp (round_work E query rag_instance provider model language on_progress
        check_cancelled breadth depth k t0)
     (fun r s' t =>
        r <> Ok Next /\
        all_learnings s' = all_learnings s /\
        (length (List.filter is_round t) <= 1)%nat /\
        count_rounds t = [] /\ discovered t = [] /\
        List.filter is_retrieve t = []) s.
Proof.
  intros Hnone. unfold round_work.
  repeat lazymatch goal with
  | |- wp (lift (generate_research_queries _ _ _ _ _ _)) _ _ =>
      apply generate_wp_none; [exact Hnone | intros ? ? ?];
      cbv beta iota; cbn [nonempty]
  | |- _ => wp_step
  end.
  all: cbv beta iota; log_clean; repeat split; auto; discriminate.
Qed.

Lemma research_iteration_no_candidates breadth depth start_time k (s : St W) :
  unsupported provider \/ breadth = 0 ->
  wp (research_iteration E query rag_instance provider model language
        on_progress check_cancelled breadth depth start_time k)
     (fun r s' t =>
        r <> Ok Next /\
        all_learnings s' = all_learnings s /\
        (length (List.filter is_round t) <= 1)%nat /\
        count_rounds t = [] /\ discovered t = [] /\
        List.filter is_retrieve t = []) s.
Proof.
  intros Hnone. unfold research_iteration.
  repeat lazymatch goal with
  | |- wp (round_work _ _ _ _ _ _ _ _ _ _ _ _) _ _ =>
      eapply wp_mono;
      [apply round_work_no_candidates; exact Hnone
      | cbv beta; intros ? ? ? (? & ? & ? & ? & ? & ?)]
  | |- _ => wp_step
  end.
  all: cbv beta iota; log_clean; use_facts; log_clean.
  all: repeat split; auto; try discriminate; try (simpl; lia).
Qed.

Lemma for_iterations_no_candidates breadth depth start_time iterations
    (s : St W) :
  unsupported provider \/ breadth = 0 ->
  wp (for_iterations E query rag_instance provider model language
        on_progress check_cancelled breadth depth start_time iterations)
     (fun r s' t =>
        all_learnings s' = all_learnings s /\
        (length (List.filter is_round t) <= 1)%nat /\
        count_rounds t = [] /\ discovered t = [] /\
        List.filter is_retrieve t = []) s.
Proof.
  intros Hnone. destruct iterations as [|k rest]; cbn [for_iterations].
  { wp_step. simpl. repeat split; auto. }
  wp_step. eapply wp_mono; [apply research_iteration_no_candidates; exact Hnone|].
  cbv beta. intros r s1 t1 (Hr & Ha & Hn & Hc & Hd & Hq).
  destruct r as [[|]|e]; cbv beta iota.
  - exfalso. apply Hr. reflexivity.
  - wp_step. log_clean. rewrite ?Hc, ?Hd, ?Hq. repeat split; auto; lia.
  - repeat split; auto.
Qed.

Lemma deep_research_body_no_candidates breadth depth (s : St W) :
  unsupported provider \/ breadth = 0 ->
  wp (deep_research_body E query rag_instance provider model language
        on_progress check_cancelled breadth depth)
     (fun r s' t =>
        (rounds_executed t <= 1)%nat /\
        queries_issued t = 0%nat /\
        retrievals t = 0%nat /\
        discovered t = []) s.
Proof.
  intros Hnone.
  assert (Hclamp : unsupported provider \/
                   Z.min breadth MAX_QUERIES_PER_ITERATION = 0).
  { destruct Hnone as [Hu | ->]; [left; exact Hu | right; reflexivity]. }
  unfold deep_research_body, research_loop.
  unfold rounds_executed, queries_issued, retrievals.
  repeat lazymatch goal with
  | |- wp (for_iterations _ _ _ _ _ _ _ _ _ _ _ _) _ _ =>
      eapply wp_mono;
      [apply for_iterations_no_candidates; exact Hclamp
      | cbv beta; intros ? ? ? (? & ? & ? & ? & ?)]
  | |- wp (report_phase _ _ _ _ _) _ _ =>
      eapply wp_mono;
      [apply report_phase_aside | cbv beta; intros ? ? ? (? & ?)]
  | |- _ => wp_step
  end.
  all: cbv beta iota; log_clean; use_facts; log_clean.
  all: repeat match goal with
       | H : aside ?t |- _ =>
           rewrite ?(aside_rounds t H), ?(aside_count_rounds t H),
             ?(aside_discovered t H)
       end.
  all: log_clean; repeat split; auto; try (simpl; lia).
Qed.

(** X8. When no candidate can come back from the query generation, because
    the provider is unsupported or the breadth is 0, at most one round gets
    past the stop checks, the query counter is never incremented, the
    retriever is never called, and a run that returns gives no learnings and
    the fixed report around the question. *)
Theorem X8_no_candidates_no_research breadth depth w :
  unsupported provider \/ breadth = 0 ->
  (rounds_executed
     (events (deep_research E query rag_instance provider model language
                on_progress check_cancelled breadth depth w)) <= 1)%nat /\
  queries_issued
    (events (deep_research E query rag_instance provider model language
               on_progress check_cancelled breadth depth w)) = 0%nat /\
  retrievals
    (events (deep_research E query rag_instance provider model language
               on_progress check_cancelled breadth depth w)) = 0%nat /\
  forall r,
    result (deep_research E query rag_instance provider model language
              on_progress check_cancelled breadth depth w) = Ok r ->
    r = {| learnings := []; final_report := fallback_report query |}.
Proof.
  intros Hnone.
  pose proof (deep_research_body_no_candidates breadth depth (enter w) Hnone)
    as (Hr & Hq & Hc & Hd).
  pose proof (deep_research_body_summary breadth depth (enter w)) as H.
  unfold wp in H. destruct H as (Hres & _).
  change (events (deep_research E query rag_instance provider model language
            on_progress check_cancelled breadth depth w)) with
    (events (deep_research_body E query rag_instance provider model
               language on_progress check_cancelled breadth depth (enter w))).
  change (result (deep_research E query rag_instance provider model language
            on_progress check_cancelled breadth depth w)) with
    (result (deep_research_body E query rag_instance provider model
               language on_progress check_cancelled breadth depth (enter w))).
  repeat match goal with |- _ /\ _ => split end; auto.
  intros r Hok. destruct (Hres r Hok) as (Hl & Hempty & _).
  rewrite Hd in Hl. destruct (Hempty Hl) as (Hf & _).
  destruct r as [ls rep]. simpl in *. congruence.
Qed.

(** ** Runs without rounds *)

Lemma range_nonpositive depth : depth <= 0 -> range (Z.min depth 5) = [].
Proof.
  intros Hd. unfold range. replace (Z.to_nat (Z.min depth 5)) with 0%nat by lia.
  reflexivity.
Qed.

Ltac wp_trace :=
  repeat (wp_exact;
          cbn [nonempty all_learnings iteration_learnings total_queries
               final_report_chunks set_world set_all_learnings
               set_iteration_learnings set_total_queries
               set_final_report_chunks]).

(** X9. With a depth of 0 or less, a run that returns has consulted neither
    the cancellation probe nor the query generation: its log is the start
    message with the clamped tunables, the report message and the fixed
    report, each delivered to the sink when there is one. *)
Theorem X9_no_depth_no_rounds breadth depth w r :
  depth <= 0 ->
  result (deep_research E query rag_instance provider model language
            on_progress check_cancelled breadth depth w) = Ok r ->
  r = {| learnings := []; final_report := fallback_report query |} /\
  events (deep_research E query rag_instance provider model language
            on_progress check_cancelled breadth depth w)
  = sink_events on_progress
      (think ("Starting deep research with depth=" +:+
              pretty (Z.min depth 5) +:+ ", breadth=" +:+
              pretty (Z.min breadth MAX_QUERIES_PER_ITERATION))) ++
    sink_events on_progress (think "Generating final comprehensive report...") ++
    sink_events on_progress (fallback_report query).
Proof.
  intros Hd.
  change (result (deep_research E query rag_instance provider model language
            on_progress check_cancelled breadth depth w)) with
    (result (deep_research_body E query rag_instance provider model
               language on_progress check_cancelled breadth depth (enter w))).
  change (events (deep_research E query rag_instance provider model language
            on_progress check_cancelled breadth depth w)) with
    (events (deep_research_body E query rag_instance provider model
               language on_progress check_cancelled breadth depth (enter w))).
  revert r.
  change (wp (deep_research_body E query rag_instance provider model
                language on_progress check_cancelled breadth depth)
             (fun r' _ t => forall r, r' = Ok r ->
                r = {| learnings := []; final_report := fallback_report query |} /\
                t = sink_events on_progress
                      (think ("Starting deep research with depth=" +:+
                              pretty (Z.min depth 5) +:+ ", breadth=" +:+
                              pretty (Z.min breadth MAX_QUERIES_PER_ITERATION))) ++
                    sink_events on_progress
                      (think "Generating final comprehensive report...") ++
                    sink_events on_progress (fallback_report query))
             (enter w)).
  unfold deep_research_body, research_loop, report_phase.
  cbv zeta. rewrite (range_nonpositive depth Hd). cbn [for_iterations].
  wp_trace.
  all: try discriminate.
  intros res [= <-]. rewrite ?app_nil_r, ?app_nil_l. split; reflexivity.
Qed.

(** ** The report generator *)

Lemma delivered_app t1 t2 : delivered (t1 ++ t2) = delivered t1 ++ delivered t2.
Proof. apply flat_map_app. Qed.

Lemma delivered_sink_events (sink : option (string -> cap W unit)) msg :
  delivered (sink_events sink msg) = forwarded sink [msg].
Proof. destruct sink; reflexivity. Qed.

Lemma yielded_sink_events (sink : option (string -> cap W unit)) msg :
  yielded (sink_events sink msg) = [].
Proof. destruct sink; reflexivity. Qed.

Lemma forwarded_app (sink : option (string -> cap W unit)) l1 l2 :
  forwarded sink (l1 ++ l2) = forwarded sink l1 ++ forwarded sink l2.
Proof. destruct sink; reflexivity. Qed.

Lemma forwarded_nil (sink : option (string -> cap W unit)) :
  forwarded sink [] = [].
Proof. destruct sink; reflexivity. Qed.

Ltac stream_simpl :=
  repeat (progress (
    rewrite ?delivered_app, ?yielded_app, ?delivered_sink_events,
      ?yielded_sink_events, ?forwarded_app, ?forwarded_nil, ?app_nil_r;
    cbn [delivered yielded flat_map delivered_by yielded_by app
         all_learnings iteration_learnings total_queries final_report_chunks
         set_world set_all_learnings set_iteration_learnings set_total_queries
         set_final_report_chunks world])).

Section Generator.
Variable on_chunk : option (string -> cap W unit).
Hypothesis chunk_ok : sink_never_raises on_chunk.

Ltac wp_sure :=
  cbv beta iota;
  lazymatch goal with
  | |- wp (notify_with _ _) _ _ =>
      apply notify_wp_ok; [exact chunk_ok | intros ?]
  | |- wp (yield _) _ _ => unfold yield
  | |- wp (lift (call _)) _ _ => apply wp_lift; apply wp_call
  | |- _ => wp_step
  end.

Lemma stream_chunks_exact raw : forall s : St W,
  wp (stream_chunks on_chunk raw)
     (fun r s' t =>
        r = Ok tt /\
        yielded t = List.filter truthy raw /\
        delivered t = forwarded on_chunk (yielded t)) s.
Proof.
  induction raw as [|c rest IH]; intros s; cbn [stream_chunks List.filter].
  { wp_sure. repeat split; destruct on_chunk; reflexivity. }
  wp_sure. destruct (truthy c).
  - repeat wp_sure.
    eapply wp_mono; [apply IH|]. cbv beta. intros r s' t (-> & Hy & Hd).
    stream_simpl. rewrite Hy, Hd, Hy. repeat split.
  - wp_sure.
    eapply wp_mono; [apply IH|]. cbv beta. intros r s' t (-> & Hy & Hd).
    stream_simpl. rewrite Hy, Hd, Hy. repeat split.
Qed.

Lemma consume_stream_exact response (s : St W) :
  wp (consume_stream on_chunk response)
     (fun r s' t =>
        r = match stream_error response with
            | Some e => Raise e
            | None => Ok tt
            end /\
        yielded t = List.filter truthy (chunks response) /\
        delivered t = forwarded on_chunk (yielded t)) s.
Proof.
  unfold consume_stream. wp_sure.
  eapply wp_mono; [apply stream_chunks_exact|]. cbv beta.
  intros r s' t (-> & Hy & Hd).
  destruct (stream_error response) as [e|]; wp_sure.
  all: stream_simpl; rewrite Hd, Hy; repeat split.
Qed.

(** What the generator yields, given the outcome of its [try] block. *)
Lemma write_final_report_streaming_exact q all fragments (s : St W) :
  wp (report_attempt E provider model q all on_chunk)
     (fun r _ t =>
        yielded t ++ match r with
                     | Ok _ => []
                     | Raise e => [report_error_message e]
                     end = fragments /\
        delivered t = forwarded on_chunk (yielded t)) s ->
  wp (write_final_report_streaming E provider model q all on_chunk)
     (fun r _ t =>
        r = Ok tt /\ yielded t = fragments /\
        delivered t = forwarded on_chunk fragments) s.
Proof.
  intros Hattempt. unfold write_final_report_streaming.
  wp_sure. wp_sure. wp_sure.
  eapply wp_mono; [exact Hattempt|]. cbv beta.
  intros r s' t (Hy & Hd). destruct r as [[]|e]; cbv beta iota.
  - stream_simpl. rewrite app_nil_r in Hy. rewrite Hd, Hy. repeat split.
  - repeat wp_sure. stream_simpl. rewrite Hd, <- Hy, forwarded_app.
    repeat split.
Qed.

(** X10. With a sink that does not raise (or none), when the configuration
    lookup and the stream call of a supported provider return, the report
    generator returns, yields the non-empty fragments of the stream in order,
    followed by the failure text when the stream breaks, and the sink has
    received exactly what was yielded. *)
Theorem X10_report_generator_streams q all cfg response (s : St W) :
  fst (get_model_config E provider model (world s)) = Ok cfg ->
  (provider = "openai" /\
   fst (openai_stream E (model_or model cfg) q all
          (snd (get_model_config E provider model (world s)))) = Ok response) \/
  (provider = "google" /\
   fst (google_stream E (model_or model cfg) q all
          (snd (get_model_config E provider model (world s)))) = Ok response) ->
  result (write_final_report_streaming E provider model q all on_chunk s)
  = Ok tt /\
  yielded (events (write_final_report_streaming E provider model q all
                     on_chunk s))
  = stream_outcome response /\
  delivered (events (write_final_report_streaming E provider model q all
                       on_chunk s))
  = forwarded on_chunk (stream_outcome response).
Proof.
  intros Hcfg Hstream.
  apply (write_final_report_streaming_exact q all (stream_outcome response) s).
  unfold report_attempt. wp_sure. wp_sure. rewrite Hcfg. cbv beta iota.
  cbn [world set_world].
  destruct Hstream as [[Hp Hs] | [Hp Hs]].
  - replace (String.eqb provider "openai") with true
      by (rewrite Hp; reflexivity).
    wp_sure. wp_sure. cbn [world set_world]. rewrite Hs. cbv beta iota.
    eapply wp_mono; [apply consume_stream_exact|]. cbv beta.
    intros r s' t (-> & Hy & Hd). stream_simpl. rewrite Hd, Hy.
    unfold stream_outcome. destruct (stream_error response); split; reflexivity.
  - replace (String.eqb provider "openai") with false
      by (rewrite Hp; reflexivity).
    replace (String.eqb provider "google") with true
      by (rewrite Hp; reflexivity).
    wp_sure. wp_sure. cbn [world set_world]. rewrite Hs. cbv beta iota.
    eapply wp_mono; [apply consume_stream_exact|]. cbv beta.
    intros r s' t (-> & Hy & Hd). stream_simpl. rewrite Hd, Hy.
    unfold stream_outcome. destruct (stream_error response); split; reflexivity.
Qed.

(** X11. With a provider that is neither "openai" nor "google" and a sink
    that does not raise (or none), the report generator returns and yields
    one fragment: the fixed message when the configuration lookup returns,
    the failure text when it raises. *)
Theorem X11_report_generator_unsupported q all (s : St W) :
  unsupported provider ->
  result (write_final_report_streaming E provider model q all on_chunk s)
  = Ok tt /\
  yielded (events (write_final_report_streaming E provider model q all
                     on_chunk s))
  = [match fst (get_model_config E provider model (world s)) with
     | Ok _ => unsupported_provider_message
     | Raise e => report_error_message e
     end].
Proof.
  intros Hu.
  refine (let H := write_final_report_streaming_exact q all _ s _ in
          conj (proj1 H) (proj1 (proj2 H))).
  unfold report_attempt. wp_sure. wp_sure.
  destruct (unsupported_eqb Hu) as [-> ->].
  destruct (fst (get_model_config E provider model (world s))) as [cfg|e];
    cbv beta iota.
  - repeat wp_sure. stream_simpl. split; reflexivity.
  - stream_simpl. split; reflexivity.
Qed.

Lemma report_attempt_delivers q all (s : St W) :
  wp (report_attempt E provider model q all on_chunk)
     (fun _ _ t => delivered t = forwarded on_chunk (yielded t)) s.
Proof.
  unfold report_attempt.
  repeat lazymatch goal with
  | |- wp (consume_stream _ _) _ _ =>
      eapply wp_mono;
      [apply consume_stream_exact | cbv beta; intros ? ? ? (_ & _ & ?)]
  | |- _ => wp_sure
  end.
  all: cbv beta iota; stream_simpl; try reflexivity.
  all: match goal with H : delivered _ = _ |- _ => rewrite H end; reflexivity.
Qed.

Lemma write_final_report_streaming_delivers q all (s : St W) :
  wp (write_final_report_streaming E provider model q all on_chunk)
     (fun r _ t => r = Ok tt /\ delivered t = forwarded on_chunk (yielded t)) s.
Proof.
  pose proof (report_attempt_delivers q all
                (final (log (EvReport all) s))) as Hd.
  epose proof (write_final_report_streaming_exact q all _ s) as H.
  unfold wp in H, Hd |- *.
  destruct H as (Hr & Hy & Hdel).
  - unfold wp. split; [reflexivity|]. exact Hd.
  - rewrite Hy. split; assumption.
Qed.
End Generator.

(** ** What the sink sees of the report *)

Section DeliveredReport.
Hypothesis sink_ok : sink_never_raises on_progress.

Lemma report_phase_delivers (s : St W) :
  all_learnings s <> [] ->
  wp (report_phase E query provider model on_progress)
     (fun _ _ t =>
        delivered t
        = forwarded on_progress
            (think "Generating final comprehensive report..." :: yielded t)) s.
Proof.
  intros Hne. unfold report_phase.
  apply wp_bind. apply notify_wp_ok; [exact sink_ok | intros w0].
  wp_step. wp_step. cbn [all_learnings set_world].
  destruct (all_learnings s) as [|l0 ls] eqn:Hall; [congruence|].
  cbn [nonempty].
  wp_step. wp_step. wp_step. wp_step.
  eapply wp_mono;
    [apply (write_final_report_streaming_delivers on_progress sink_ok)|].
  cbv beta. intros r s1 t1 (-> & Hd).
  wp_run. stream_simpl. rewrite Hd.
  change (think "Generating final comprehensive report..." :: yielded t1)
    with ([think "Generating final comprehensive report..."] ++ yielded t1).
  rewrite forwarded_app. reflexivity.
Qed.

(** X12. With a sink that does not raise (or none), a run that returns
    learnings has as its report the concatenation of the fragments the
    generator yielded, and the last messages the sink received are the
    announcement of the report followed by exactly those fragments. *)
Theorem X12_sink_receives_the_report breadth depth w r :
  result (deep_research E query rag_instance provider model language
            on_progress check_cancelled breadth depth w) = Ok r ->
  learnings r <> [] ->
  final_report r
  = String.concat ""
      (yielded (events (deep_research E query rag_instance provider model
                          language on_progress check_cancelled breadth
                          depth w))) /\
  exists before,
    delivered (events (deep_research E query rag_instance provider model
                         language on_progress check_cancelled breadth
                         depth w))
    = before ++
      forwarded on_progress
        (think "Generating final comprehensive report..." ::
         yielded (events (deep_research E query rag_instance provider model
                            language on_progress check_cancelled breadth
                            depth w))).
Proof.
  change (result (deep_research E query rag_instance provider model language
            on_progress check_cancelled breadth depth w)) with
    (result (deep_research_body E query rag_instance provider model
               language on_progress check_cancelled breadth depth (enter w))).
  change (events (deep_research E query rag_instance provider model language
            on_progress check_cancelled breadth depth w)) with
    (events (deep_research_body E query rag_instance provider model
               language on_progress check_cancelled breadth depth (enter w))).
  intros Hr Hne.
  pose proof (deep_research_body_summary breadth depth (enter w)) as H.
  unfold wp in H. destruct H as (Hres & _).
  destruct (Hres r Hr) as (Hl & _ & Hfull).
  destruct (Hfull Hne) as [Hf _]. split; [exact Hf|].
  clear Hres Hfull Hf. revert Hr Hl.
  unfold deep_research_body, bind.
  pose proof (research_loop_summary breadth depth (enter w)) as Hloop.
  unfold wp in Hloop. destruct Hloop as (Ha & _ & _ & _ & _ & _ & Hrep & _).
  destruct (result (research_loop E query rag_instance provider model language
                      on_progress check_cancelled breadth depth (enter w)))
    as [[]|e]; [|discriminate].
  cbn [result events]. intros Hr Hl.
  specialize (Ha eq_refl).
  pose proof (report_phase_summary
                (final (research_loop E query rag_instance provider model
                          language on_progress check_cancelled breadth depth
                          (enter w)))) as Hsum.
  unfold wp in Hsum. destruct Hsum as (_ & _ & _ & Hres).
  destruct (Hres r Hr) as (Hl2 & _).
  assert (Hall : all_learnings
                   (final (research_loop E query rag_instance provider model
                             language on_progress check_cancelled breadth
                             depth (enter w))) <> []) by congruence.
  pose proof (report_phase_delivers _ Hall) as Hd. unfold wp in Hd.
  exists (delivered
            (events (research_loop E query rag_instance provider model
                       language on_progress check_cancelled breadth depth
                       (enter w)))).
  rewrite delivered_app, yielded_app, (no_report_yielded _ Hrep), Hd.
  reflexivity.
Qed.
End DeliveredReport.

(** ** Single candidates *)

(** X13. A candidate without a search string (no "query" key, or an empty
    one) still uses up one unit of the query counter when the check before
    it lets it through, yet it leads to no retrieval call and to no message
    for the sink, and it leaves the learnings of the round as they were. *)
Theorem X13_candidate_without_search_string breadth k i query_info (s : St W) :
  truthy (dict_get query_info "query" "") = false ->
  retrievals
    (events (query_step E rag_instance provider model language on_progress
               check_cancelled breadth k i query_info s)) = 0%nat /\
  delivered
    (events (query_step E rag_instance provider model language on_progress
               check_cancelled breadth k i query_info s)) = [] /\
  iteration_learnings
    (final (query_step E rag_instance provider model language on_progress
              check_cancelled breadth k i query_info s))
  = iteration_learnings s /\
  total_queries
    (final (query_step E rag_instance provider model language on_progress
              check_cancelled breadth k i query_info s))
  = match result (query_step E rag_instance provider model language
                    on_progress check_cancelled breadth k i query_info s) with
    | Ok Next => total_queries s + 1
    | _ => total_queries s
    end.
Proof.
  intros Hempty.
  unfold query_step, cancelled, clock, retrievals.
  destruct check_cancelled as [probe|].
  - unfold bind, lift, call, log, ret, gets, modify; cbn.
    destruct (fst (probe (world s))) as [[|]|e]; cbn; rewrite ?Hempty; cbn;
      repeat split; reflexivity.
  - unfold bind, lift, call, log, ret, gets, modify; cbn.
    rewrite Hempty. cbn. repeat split; reflexivity.
Qed.

(** X14. When the retriever returns no result, or a first result without
    documents, the extraction is not called: with a sink that does not raise
    (or none) the candidate's log is the retrieval call followed by the
    "No relevant code found" message, and the learnings of the round stay as
    they were. *)
Theorem X14_no_documents_no_extraction breadth k i search_query rs (s : St W) :
  sink_never_raises on_progress ->
  fst (rag_instance search_query language (world s)) = Ok rs ->
  (rs = [] \/ exists first rest, rs = first :: rest /\ documents first = []) ->
  result (search_candidate E rag_instance provider model language on_progress
            breadth k i search_query s) = Ok tt /\
  events (search_candidate E rag_instance provider model language on_progress
            breadth k i search_query s)
  = EvRetrieve k i search_query (now E (world s)) ::
    sink_events on_progress
      (think ("No relevant code found for: " +:+ search_query)) /\
  iteration_learnings
    (final (search_candidate E rag_instance provider model language
              on_progress breadth k i search_query s))
  = iteration_learnings s.
Proof.
  intros Hsink Hrag Hnone.
  change (wp (search_candidate E rag_instance provider model language
                on_progress breadth k i search_query)
             (fun r s' t =>
                r = Ok tt /\
                t = EvRetrieve k i search_query (now E (world s)) ::
                    sink_events on_progress
                      (think ("No relevant code found for: " +:+ search_query)) /\
                iteration_learnings s' = iteration_learnings s) s).
  unfold search_candidate, retrieve_and_extract, clock.
  apply wp_try. apply wp_bind. apply wp_gets. cbv beta iota.
  apply wp_bind. apply wp_log. cbv beta iota.
  apply wp_bind. apply wp_lift. apply wp_call. rewrite Hrag. cbv beta iota.
  destruct Hnone as [-> | (first & rest & -> & Hdocs)].
  - apply notify_wp_ok; [exact Hsink|]. intros w1.
    cbn [iteration_learnings set_world app]. rewrite ?app_nil_r.
    repeat split.
  - cbv beta iota. rewrite Hdocs. cbn [nonempty].
    apply notify_wp_ok; [exact Hsink|]. intros w1.
    cbn [iteration_learnings set_world app]. rewrite ?app_nil_r.
    repeat split.
Qed.

(** ** Learnings feed the next round *)

Lemma fed_back_app n t1 : forall seen t2,
  fed_back n seen t1 -> fed_back n (seen ++ discovered t1) t2 ->
  fed_back n seen (t1 ++ t2).
Proof.
  induction t1 as [|e t1 IH]; intros seen t2 H1 H2.
  - simpl in *. rewrite app_nil_r in H2. exact H2.
  - destruct e; cbn [fed_back app discovered flat_map learnt] in *;
      try (apply IH; [exact H1 | exact H2]).
    + destruct H1 as [Hh H1]. split; [exact Hh|]. apply IH; assumption.
    + apply IH; [exact H1|]. rewrite <- app_assoc. exact H2.
Qed.

Lemma ungenerated_additive : additive ungenerated.
Proof.
  split.
  - intros t Ht n. unfold basic in Ht.
    induction t as [|e t IH]; intros seen; [exact I|].
    simpl in Ht. apply andb_prop in Ht as [He Ht].
    destruct e; try discriminate; cbn [fed_back]; apply IH; exact Ht.
  - intros t1 t2 H1 H2 n seen. apply fed_back_app; [apply H1 | apply H2].
Qed.

Lemma for_queries_fed breadth k queries i (s : St W) :
  wp (for_queries E rag_instance provider model language on_progress
        check_cancelled breadth k i queries)
     (fun _ s' t => all_learnings s' = all_learnings s /\ ungenerated t) s.
Proof.
  pose proof (for_queries_summary breadth k queries i s) as (Ha & _).
  split; [exact Ha|].
  apply (emits_for_queries _ ungenerated_additive).
  intros j query_info. apply (emits_query_step _ ungenerated_additive).
  intros []; try discriminate; intros _ n seen; exact I.
Qed.

Lemma report_phase_ungenerated (s : St W) :
  ungenerated (events (report_phase E query provider model on_progress s)).
Proof.
  apply (emits_report_phase _ ungenerated_additive).
  intros []; try discriminate; intros _ n seen; exact I.
Qed.

Lemma basic_wp {A} (m : M (St W) A) Q (s : St W) :
  silent m -> emits basic m ->
  (forall r w t, basic t -> Q r (set_world s w) t) ->
  wp m Q s.
Proof.
  intros Hm Hb HQ. destruct (Hm s) as [[w Hw] _]. unfold wp. rewrite Hw.
  apply HQ. apply Hb.
Qed.

Lemma generate_wp_events q n prior Q (s : St W) :
  (forall r w rest, ungenerated rest ->
     Q r (set_world s w) (EvGenerate n prior :: rest)) ->
  wp (lift (generate_research_queries E q n prior provider model)) Q s.
Proof.
  intros HQ. unfold wp, lift; cbn [result final events].
  destruct (generate_events q n prior (world s)) as (rest & -> & Hrest).
  apply HQ. destruct Hrest as [-> | [e ->]]; intros m seen; exact I.
Qed.

Lemma fed_back_basic_app n seen t1 t2 :
  basic t1 -> fed_back n seen t2 -> fed_back n seen (t1 ++ t2).
Proof.
  intros Hb H2. apply fed_back_app.
  - apply ungenerated_additive. exact Hb.
  - rewrite (quiet_discovered _ (basic_quiet _ Hb)), app_nil_r. exact H2.
Qed.

Ltac ungenerated_done :=
  repeat first
    [ assumption
    | apply (proj2 ungenerated_additive)
    | apply (proj1 ungenerated_additive); first [assumption | reflexivity] ].

Ltac fed_done :=
  cbn [app fed_back all_learnings set_world set_all_learnings
       set_iteration_learnings set_total_queries];
  rewrite ?app_nil_r; repeat rewrite <- app_assoc;
  repeat first
    [ assumption
    | apply fed_back_basic_app; [assumption|]
    | progress cbn [app fed_back all_learnings set_world set_all_learnings
                    set_iteration_learnings set_total_queries]
    | match goal with
      | |- True => exact I
      | |- fed_back _ _ [] => exact I
      | |- (_ = _ /\ _ = _) /\ _ => split; [split; reflexivity|]
      | H : ungenerated ?t |- fed_back _ _ ?t => apply H
      | H : fed_back ?n _ ?t |- fed_back ?n _ (?t ++ _) =>
          apply fed_back_app;
          [cbn [all_learnings set_world set_all_learnings
                set_iteration_learnings set_total_queries] in H; exact H|]
      | |- fed_back ?n ?seen _ =>
          let H := fresh in
          assert (H : forall t, ungenerated t -> fed_back n seen t)
            by (intros ? Hu; apply Hu);
          apply H; solve [ungenerated_done]
      end ].

Ltac wp_fed :=
  lazymatch goal with
  | |- wp (notify _ _) _ _ =>
      apply basic_wp;
      [apply notify_with_silent | apply notify_with_basic | intros ? ? ? ?]
  | |- wp (notify_with _ _) _ _ =>
      apply basic_wp;
      [apply notify_with_silent | apply notify_with_basic | intros ? ? ? ?]
  | |- wp (cancelled _ _) _ _ =>
      apply basic_wp;
      [apply cancelled_silent | apply cancelled_basic | intros ? ? ? ?]
  | |- wp (lift (generate_research_queries _ _ _ _ _ _)) _ _ =>
      apply generate_wp_events; intros ? ? ? ?
  | |- wp (for_queries _ _ _ _ _ _ _ _ _ _ _) _ _ =>
      eapply wp_mono;
      [apply for_queries_fed | cbv beta; intros ? ? ? (? & ?)]
  | |- _ => wp_step
  end.

Lemma round_work_fed breadth depth k t0 (s : St W) :
  wp (round_work E query rag_instance provider model language on_progress
        check_cancelled breadth depth k t0)
     (fun _ _ t => fed_back breadth (all_learnings s) t) s.
Proof.
  unfold round_work.
  repeat wp_fed; cbv beta iota.
  all: fed_done.
Qed.

Lemma research_iteration_fed breadth depth start_time k (s : St W) :
  wp (research_iteration E query rag_instance provider model language
        on_progress check_cancelled breadth depth start_time k)
     (fun r s' t =>
        fed_back breadth (all_learnings s) t /\
        (forall f, r = Ok f ->
           all_learnings s' = all_learnings s ++ discovered t)) s.
Proof.
  pose proof (research_iteration_summary breadth depth start_time k s)
    as (Ha & _).
  split; [|exact Ha]. clear Ha.
  change (wp (research_iteration E query rag_instance provider model language
                on_progress check_cancelled breadth depth start_time k)
             (fun _ _ t => fed_back breadth (all_learnings s) t) s).
  unfold research_iteration.
  repeat lazymatch goal with
  | |- wp (round_work _ _ _ _ _ _ _ _ _ _ _ _) _ _ =>
      eapply wp_mono;
      [apply round_work_fed | cbv beta; intros ? ? ? ?]
  | |- _ => wp_fed
  end.
  all: cbv beta iota; fed_done.
Qed.

Lemma for_iterations_fed breadth depth start_time iterations :
  forall s : St W,
  wp (for_iterations E query rag_instance provider model language
        on_progress check_cancelled breadth depth start_time iterations)
     (fun _ _ t => fed_back breadth (all_learnings s) t) s.
Proof.
  induction iterations as [|k rest IH]; intros s; cbn [for_iterations].
  { wp_step. exact I. }
  wp_step. eapply wp_mono; [apply research_iteration_fed|].
  cbv beta. intros r s1 t1 (Hfed & Ha).
  destruct r as [[|]|e]; cbv beta iota.
  - eapply wp_mono; [apply IH|]. cbv beta. intros _ _ t2 Hrest.
    apply fed_back_app; [exact Hfed|].
    rewrite <- (Ha Next eq_refl). exact Hrest.
  - wp_step. rewrite app_nil_r. exact Hfed.
  - exact Hfed.
Qed.

Lemma deep_research_body_fed breadth depth (s : St W) :
  wp (deep_research_body E query rag_instance provider model language
        on_progress check_cancelled breadth depth)
     (fun _ _ t =>
        fed_back (Z.min breadth MAX_QUERIES_PER_ITERATION) [] t) s.
Proof.
  unfold deep_research_body, research_loop.
  repeat lazymatch goal with
  | |- wp (for_iterations _ _ _ _ _ _ _ _ _ _ _ _) _ _ =>
      eapply wp_mono;
      [apply for_iterations_fed | cbv beta; intros ? ? ? ?]
  | |- wp (report_phase _ _ _ _ _) _ ?s1 =>
      pose proof (report_phase_ungenerated s1); unfold wp
  | |- _ => wp_fed
  end.
  all: cbv beta iota; fed_done.
Qed.

(** X15. In every run, each call of the query generation asks for
    min(breadth, 5) candidates and is given the learnings of the rounds
    before it, in the order of their discovery, or nothing when there are
    none yet. *)
Theorem X15_learnings_feed_the_next_round breadth depth w :
  fed_back (Z.min breadth MAX_QUERIES_PER_ITERATION) []
    (events (deep_research E query rag_instance provider model language
               on_progress check_cancelled breadth depth w)).
Proof. exact (deep_research_body_fed breadth depth (enter w)). Qed.

(** ** A sink that fails inside the [try] block *)

(** X16. The deliveries made inside the [try] block of a candidate are
    guarded: when the sink raises at the "Found ... relevant code files"
    message, the extraction is not called, the handler logs the failure and
    delivers the "Error searching for" message through the same sink, and
    the outcome of the candidate is the outcome of that second delivery. *)
Theorem X16_sink_failure_inside_try_is_caught breadth k i search_query sink
    first rest e (s : St W) :
  on_progress = Some sink ->
  fst (rag_instance search_query language (world s)) = Ok (first :: rest) ->
  documents first <> [] ->
  fst (sink (think ("Found " +:+ pretty (length (documents first)) +:+
                    " relevant code files, analyzing..."))
            (snd (rag_instance search_query language (world s)))) = Raise e ->
  events (search_candidate E rag_instance provider model language on_progress
            breadth k i search_query s)
  = [EvRetrieve k i search_query (now E (world s));
     EvSink (think ("Found " +:+ pretty (length (documents first)) +:+
                    " relevant code files, analyzing..."));
     EvRetrieveError search_query e;
     EvSink (think ("Error searching for: " +:+ search_query))] /\
  result (search_candidate E rag_instance provider model language on_progress
            breadth k i search_query s)
  = fst (sink (think ("Error searching for: " +:+ search_query))
           (snd (sink (think ("Found " +:+
                              pretty (length (documents first)) +:+
                              " relevant code files, analyzing..."))
                      (snd (rag_instance search_query language (world s)))))).
Proof.
  intros Hsink Hrag Hdocs Hraise.
  assert (Hne : nonempty (documents first) = true)
    by (destruct (documents first); [congruence | reflexivity]).
  set (found_msg := think ("Found " +:+ pretty (length (documents first)) +:+
                           " relevant code files, analyzing...")) in *.
  set (error_msg := think ("Error searching for: " +:+ search_query)) in *.
  change (wp (search_candidate E rag_instance provider model language
                on_progress breadth k i search_query)
             (fun r _ t =>
                t = [EvRetrieve k i search_query (now E (world s));
                     EvSink found_msg; EvRetrieveError search_query e;
                     EvSink error_msg] /\
                r = fst (sink error_msg
                           (snd (sink found_msg
                                   (snd (rag_instance search_query language
                                           (world s))))))) s).
  unfold search_candidate, retrieve_and_extract, notify, clock.
  rewrite Hsink. cbn [notify_with].
  apply wp_try. apply wp_bind. apply wp_gets. cbv beta iota.
  apply wp_bind. apply wp_log. cbv beta iota.
  apply wp_bind. apply wp_lift. apply wp_call. rewrite Hrag. cbv beta iota.
  rewrite Hne. cbv zeta.
  apply wp_bind. apply wp_bind. apply wp_log. cbv beta iota.
  apply wp_lift. apply wp_call. cbn [world set_world].
  fold found_msg. rewrite Hraise. cbv beta iota.
  apply wp_bind. apply wp_log. cbv beta iota.
  apply wp_bind. apply wp_log. cbv beta iota.
  apply wp_lift. apply wp_call. cbn [world set_world].
  fold error_msg. split; reflexivity.
Qed.

End OrchestratorFacts.

(** * The properties on concrete runs *)

Ltac in_log := vm_compute; repeat (first [left; reflexivity | right]).


(** C1. The counter [total_queries] is compared with the ceiling of 20 only
    at the top of a round.  With breadth 5 and depth 5 and rounds of five,
    five, five, four and five candidates, the fifth round starts at 19 and
    the run ends with 24 increments and 24 retrieval calls. *)
Theorem C1_total_queries_reaches_24 :
  MAX_TOTAL_QUERIES = 20 /\
  total_queries (final (sim_body question false false 5 5 uneven_rounds)) = 24 /\
  queries_issued (events (sim_body question false false 5 5 uneven_rounds))
    = 24%nat /\
  length (List.filter is_retrieve
            (events (sim_run question false false 5 5 uneven_rounds)))
    = 24%nat /\
  List.map (fun k => queries_issued_in k
                       (events (sim_run question false false 5 5 uneven_rounds)))
           [0; 1; 2; 3; 4]%nat
    = [5; 5; 5; 4; 5]%nat.
Proof. vm_compute. repeat split; reflexivity. Qed.


Lemma C10_witness :
  exists r,
    result (sim_run question false true 3 2 cancelled_mid_round) = Ok r /\
    In (EvProbe (BeforeQuery 0 1) true)
       (events (sim_run question false true 3 2 cancelled_mid_round)) /\
    In (EvLearnings 0 0 ["tokens are signed"; "sessions expire"])
       (events (sim_run question false true 3 2 cancelled_mid_round)) /\
    exists before after,
      learnings r = before ++ ["tokens are signed"; "sessions expire"] ++ after.
Proof.
  eexists. split; [vm_compute; reflexivity|].
  split; [in_log|]. split; [in_log|].
  apply (C10_partial_round_learnings_kept sim_env question sim_rag_instance
           "openai" None "en" None (Some sim_probe_call) 3 2
           cancelled_mid_round _ 0%nat 1%nat 0%nat).
  - vm_compute. reflexivity.
  - in_log.
  - in_log.
Defined.

Lemma C4_witness :
  exists r,
    result (sim_run question true false 3 2 no_candidates) = Ok r /\
    learnings r = [] /\
    (forall all, ~ In (EvReport all)
                      (events (sim_run question true false 3 2 no_candidates))) /\
    final_report r = fallback_report question.
Proof.
  eexists. split; [vm_compute; reflexivity|]. split; [reflexivity|].
  destruct (C4_fallback_report sim_env question sim_rag_instance "openai" None
              "en" (Some sim_sink_call) None 3 2 no_candidates _
              ltac:(vm_compute; reflexivity) ltac:(reflexivity))
    as (H1 & H2 & _).
  split; [exact H1 | exact H2].
Defined.

Lemma C6_witness :
  0 <= 3 /\ 0 <= 2 /\
  0 <= Z.of_nat (rounds_executed
                   (events (sim_run question true false 3 2 two_rounds)))
    <= Z.min 2 5 /\
  forall k,
    Z.of_nat (queries_issued_in k
                (events (sim_run question true false 3 2 two_rounds)))
    <= Z.min 3 MAX_QUERIES_PER_ITERATION.
Proof.
  split; [lia|]. split; [lia|].
  apply (C6_round_and_query_bounds sim_env question sim_rag_instance "openai"
           None "en" (Some sim_sink_call) None 3 2 two_rounds); lia.
Defined.

(** C6 as stated fails: a client that is gone before the first round leaves
    no round executed, although depth is 2. *)
Lemma C6_counterexample :
  ~ (1 <= Z.of_nat (rounds_executed
                      (events (sim_run question true true 3 2 cancelled_at_once)))
       <= Z.min 2 5).
Proof. vm_compute. intros [H _]. apply H. reflexivity. Qed.

(** C5 as stated fails: in a round that started in time, the second
    candidate is dispatched 401 seconds after the start of the run. *)
Lemma C5_counterexample :
  ~ Forall (dispatched_in_time (sim_clock slow_retrieval))
      (events (sim_run question false false 2 1 slow_retrieval)).
Proof.
  intros H. rewrite List.Forall_forall in H.
  specialize (H (EvRetrieve 0 1 "topic 1" 1401)).
  assert (Hin : In (EvRetrieve 0 1 "topic 1" 1401)
                   (events (sim_run question false false 2 1 slow_retrieval)))
    by in_log.
  specialize (H Hin). vm_compute in H. apply H. reflexivity.
Qed.



Lemma quiet_sink_never_raises : sink_never_raises (Some sim_quiet_sink).
Proof. intros sink [= <-] msg w. exists tt. reflexivity. Qed.








(** ** The further properties on concrete runs *)

Lemma other_provider_unsupported : unsupported other_provider.
Proof. split; discriminate. Qed.

Lemma X1_witness :
  0 <= 3 /\
  result (generate_research_queries sim_env question 3 None "openai" None
            talkative_model)
  = Ok (candidates 3) /\
  exists qs,
    result (generate_research_queries sim_env question 3 None "openai" None
              talkative_model) = Ok qs /\
    Z.of_nat (length qs) <= 3.
Proof.
  split; [lia|]. split; [vm_compute; reflexivity|].
  apply (X1_generate_queries_bounded sim_env "openai" None question 3 None
           talkative_model).
  lia.
Defined.


Lemma X4_witness :
  Forall without_text blank_docs /\
  process_research_results sim_env question blank_docs 3 3 "openai" None
    verbose_extraction
  = Out (Ok no_findings) verbose_extraction [EvExtract question].
Proof.
  assert (H : Forall without_text blank_docs).
  { constructor; [left; reflexivity|].
    constructor; [right; reflexivity|]. constructor. }
  split; [exact H|].
  apply (X4_extraction_without_text sim_env "openai" None question blank_docs
           3 3 verbose_extraction H).
Defined.


Lemma X7_witness :
  0 <= 5 /\
  retrievals (events (sim_run question false false 5 5 uneven_rounds)) = 24%nat /\
  (retrievals (events (sim_run question false false 5 5 uneven_rounds))
   <= queries_issued (events (sim_run question false false 5 5 uneven_rounds))
   <= 24)%nat /\
  forall r,
    result (sim_run question false false 5 5 uneven_rounds) = Ok r ->
    (length (learnings r)
     <= 3 * retrievals
          (events (sim_run question false false 5 5 uneven_rounds)))%nat.
Proof.
  split; [lia|]. split; [vm_compute; reflexivity|].
  apply (X7_retrieval_budget sim_env question sim_rag_instance "openai" None
           "en" None None 5 5 uneven_rounds).
  lia.
Defined.

Lemma X8_witness :
  (unsupported other_provider \/ 3 = 0) /\
  (rounds_executed
     (events (deep_research sim_env question sim_rag_instance other_provider
                None "en" (Some sim_sink_call) None 3 2 two_rounds))
   <= 1)%nat /\
  queries_issued
    (events (deep_research sim_env question sim_rag_instance other_provider
               None "en" (Some sim_sink_call) None 3 2 two_rounds)) = 0%nat /\
  retrievals
    (events (deep_research sim_env question sim_rag_instance other_provider
               None "en" (Some sim_sink_call) None 3 2 two_rounds)) = 0%nat /\
  forall r,
    result (deep_research sim_env question sim_rag_instance other_provider
              None "en" (Some sim_sink_call) None 3 2 two_rounds) = Ok r ->
    r = {| learnings := []; final_report := fallback_report question |}.
Proof.
  split; [left; exact other_provider_unsupported|].
  apply (X8_no_candidates_no_research sim_env question sim_rag_instance
           other_provider None "en" (Some sim_sink_call) None 3 2 two_rounds).
  left. exact other_provider_unsupported.
Defined.

Lemma X9_witness :
  0 <= 0 /\
  exists r,
    result (sim_run question true true 3 0 two_rounds) = Ok r /\
    r = {| learnings := []; final_report := fallback_report question |} /\
    events (sim_run question true true 3 0 two_rounds)
    = sink_events (Some sim_sink_call)
        (think ("Starting deep research with depth=" +:+
                pretty (Z.min 0 5) +:+ ", breadth=" +:+
                pretty (Z.min 3 MAX_QUERIES_PER_ITERATION))) ++
      sink_events (Some sim_sink_call)
        (think "Generating final comprehensive report...") ++
      sink_events (Some sim_sink_call) (fallback_report question).
Proof.
  split; [lia|]. eexists. split; [vm_compute; reflexivity|].
  apply (X9_no_depth_no_rounds sim_env question sim_rag_instance "openai" None
           "en" (Some sim_sink_call) (Some sim_probe_call) 3 0 two_rounds).
  - lia.
  - vm_compute. reflexivity.
Defined.

Lemma X10_witness :
  sink_never_raises (Some sim_quiet_sink) /\
  fst (get_model_config sim_env "openai" None (world (enter two_rounds)))
  = Ok "sim-model" /\
  stream_outcome {| chunks := ["# Report"; ""; " body"]; stream_error := None |}
  = ["# Report"; " body"] /\
  result (write_final_report_streaming sim_env "openai" None question
            ["tokens are signed"] (Some sim_quiet_sink) (enter two_rounds))
  = Ok tt /\
  yielded (events (write_final_report_streaming sim_env "openai" None question
                     ["tokens are signed"] (Some sim_quiet_sink)
                     (enter two_rounds)))
  = stream_outcome
      {| chunks := ["# Report"; ""; " body"]; stream_error := None |} /\
  delivered (events (write_final_report_streaming sim_env "openai" None
                       question ["tokens are signed"] (Some sim_quiet_sink)
                       (enter two_rounds)))
  = forwarded (Some sim_quiet_sink)
      (stream_outcome
         {| chunks := ["# Report"; ""; " body"]; stream_error := None |}).
Proof.
  split; [exact quiet_sink_never_raises|].
  split; [reflexivity|]. split; [reflexivity|].
  apply (X10_report_generator_streams sim_env "openai" None
           (Some sim_quiet_sink) quiet_sink_never_raises question
           ["tokens are signed"] "sim-model"
           {| chunks := ["# Report"; ""; " body"]; stream_error := None |}
           (enter two_rounds)).
  - reflexivity.
  - left. split; reflexivity.
Defined.

Lemma X11_witness :
  sink_never_raises (Some sim_quiet_sink) /\
  unsupported other_provider /\
  result (write_final_report_streaming sim_env other_provider None question
            ["tokens are signed"] (Some sim_quiet_sink) (enter two_rounds))
  = Ok tt /\
  yielded (events (write_final_report_streaming sim_env other_provider None
                     question ["tokens are signed"] (Some sim_quiet_sink)
                     (enter two_rounds)))
  = [unsupported_provider_message].
Proof.
  split; [exact quiet_sink_never_raises|].
  split; [exact other_provider_unsupported|].
  apply (X11_report_generator_unsupported sim_env other_provider None
           (Some sim_quiet_sink) quiet_sink_never_raises question
           ["tokens are signed"] (enter two_rounds)
           other_provider_unsupported).
Defined.

Lemma X12_witness :
  sink_never_raises (Some sim_quiet_sink) /\
  exists r,
    result (sim_run_quiet 3 2 two_rounds) = Ok r /\
    learnings r <> [] /\
    yielded (events (sim_run_quiet 3 2 two_rounds)) = ["# Report"; " body"] /\
    final_report r
    = String.concat "" (yielded (events (sim_run_quiet 3 2 two_rounds))) /\
    exists before,
      delivered (events (sim_run_quiet 3 2 two_rounds))
      = before ++
        forwarded (Some sim_quiet_sink)
          (think "Generating final comprehensive report..." ::
           yielded (events (sim_run_quiet 3 2 two_rounds))).
Proof.
  split; [exact quiet_sink_never_raises|].
  eexists. split; [vm_compute; reflexivity|].
  split; [discriminate|]. split; [vm_compute; reflexivity|].
  apply (X12_sink_receives_the_report sim_env question sim_rag_instance
           "openai" None "en" (Some sim_quiet_sink)
           (Some sim_never_cancelled) quiet_sink_never_raises 3 2 two_rounds).
  - vm_compute. reflexivity.
  - discriminate.
Defined.

Lemma X13_witness :
  truthy (dict_get bare_candidate "query" "") = false /\
  result (query_step sim_env sim_rag_instance "openai" None "en"
            (Some sim_sink_call) (Some sim_probe_call) 3 0 0 bare_candidate
            (enter two_rounds)) = Ok Next /\
  retrievals
    (events (query_step sim_env sim_rag_instance "openai" None "en"
               (Some sim_sink_call) (Some sim_probe_call) 3 0 0
               bare_candidate (enter two_rounds))) = 0%nat /\
  delivered
    (events (query_step sim_env sim_rag_instance "openai" None "en"
               (Some sim_sink_call) (Some sim_probe_call) 3 0 0
               bare_candidate (enter two_rounds))) = [] /\
  iteration_learnings
    (final (query_step sim_env sim_rag_instance "openai" None "en"
              (Some sim_sink_call) (Some sim_probe_call) 3 0 0
              bare_candidate (enter two_rounds)))
  = iteration_learnings (enter two_rounds) /\
  total_queries
    (final (query_step sim_env sim_rag_instance "openai" None "en"
              (Some sim_sink_call) (Some sim_probe_call) 3 0 0
              bare_candidate (enter two_rounds)))
  = match result (query_step sim_env sim_rag_instance "openai" None "en"
                    (Some sim_sink_call) (Some sim_probe_call) 3 0 0
                    bare_candidate (enter two_rounds)) with
    | Ok Next => total_queries (enter two_rounds) + 1
    | _ => total_queries (enter two_rounds)
    end.
Proof.
  split; [reflexivity|]. split; [vm_compute; reflexivity|].
  apply (X13_candidate_without_search_string sim_env sim_rag_instance "openai"
           None "en" (Some sim_sink_call) (Some sim_probe_call) 3 0 0
           bare_candidate (enter two_rounds)).
  reflexivity.
Defined.

Lemma X14_witness :
  sink_never_raises (Some sim_quiet_sink) /\
  fst (sim_rag_instance "topic 0" "en" (world (enter sim_start))) = Ok [] /\
  result (search_candidate sim_env sim_rag_instance "openai" None "en"
            (Some sim_quiet_sink) 3 0 0 "topic 0" (enter sim_start)) = Ok tt /\
  events (search_candidate sim_env sim_rag_instance "openai" None "en"
            (Some sim_quiet_sink) 3 0 0 "topic 0" (enter sim_start))
  = EvRetrieve 0 0 "topic 0" (now sim_env (world (enter sim_start))) ::
    sink_events (Some sim_quiet_sink)
      (think ("No relevant code found for: " +:+ "topic 0")) /\
  iteration_learnings
    (final (search_candidate sim_env sim_rag_instance "openai" None "en"
              (Some sim_quiet_sink) 3 0 0 "topic 0" (enter sim_start)))
  = iteration_learnings (enter sim_start).
Proof.
  split; [exact quiet_sink_never_raises|]. split; [reflexivity|].
  apply (X14_no_documents_no_extraction sim_env sim_rag_instance "openai" None
           "en" (Some sim_quiet_sink) 3 0 0 "topic 0" []
           (enter sim_start)).
  - exact quiet_sink_never_raises.
  - reflexivity.
  - left. reflexivity.
Defined.

Lemma X16_witness :
  fst (sim_rag_instance "topic 0" "en" (world (enter sink_fails_on_found)))
  = Ok auth_docs /\
  events (search_candidate sim_env sim_rag_instance "openai" None "en"
            (Some sim_sink_call) 3 0 0 "topic 0" (enter sink_fails_on_found))
  = [EvRetrieve 0 0 "topic 0" 1000;
     EvSink (think "Found 1 relevant code files, analyzing...");
     EvRetrieveError "topic 0" (Exception "sink closed");
     EvSink (think "Error searching for: topic 0")] /\
  result (search_candidate sim_env sim_rag_instance "openai" None "en"
            (Some sim_sink_call) 3 0 0 "topic 0" (enter sink_fails_on_found))
  = Ok tt.
Proof.
  split; [reflexivity|].
  destruct (X16_sink_failure_inside_try_is_caught sim_env sim_rag_instance
              "openai" None "en" (Some sim_sink_call) 3 0 0 "topic 0"
              sim_sink_call
              {| documents := [code_file "api/auth.py" "def login(user): ..."] |}
              [] (Exception "sink closed") (enter sink_fails_on_found)
              eq_refl eq_refl ltac:(discriminate) eq_refl) as [Hev Hres].
  split; [rewrite Hev; vm_compute; reflexivity|].
  rewrite Hres. vm_compute. reflexivity.
Defined.

Lemma X15_witness :
  In (EvGenerate 3 None) (events (sim_run question true false 3 2 two_rounds)) /\
  In (EvGenerate 3 (Some ["tokens are signed"; "sessions expire"]))
     (events (sim_run question true false 3 2 two_rounds)) /\
  fed_back (Z.min 3 MAX_QUERIES_PER_ITERATION) []
    (events (sim_run question true false 3 2 two_rounds)).
Proof.
  split; [in_log|]. split; [in_log|].
  apply (X15_learnings_feed_the_next_round sim_env question sim_rag_instance
           "openai" None "en" (Some sim_sink_call) None 3 2 two_rounds).
Defined.
